(** * Human_detector: the presence tracker, the event log and the alert episode

    A shallow embedding of [detector.py].  The main thread (the body of
    [main]) is a state-and-output monad over the store of [main]'s local
    variables and the file system; the alert thread
    ([speak_message_then_alarm], [play_wave]) is an output monad with Python
    exceptions and a fuel-bounded [while True] loop.  Everything the program
    reads from its environment (camera frames, clock readings, the speech
    engine's failures, the decoded sound file) is an explicit input. *)

From Stdlib Require Import QArith Lqa Sorted.
From stdpp Require Import gmap strings list.

Local Open Scope string_scope.
Local Open Scope list_scope.

(** ** Data *)

(** A cell handed to [csv.writer.writerow]: a [str] or an [int] (the writer
    stringifies it). A file is seen as the list of CSV rows it holds. *)
Inductive Cell :=
| CStr (s : string)
| CInt (n : nat).

Definition Row := list Cell.

#[global] Instance Cell_eq_dec : EqDecision Cell.
Proof. solve_decision. Defined.

(** [simpleaudio.WaveObject]: an ordinary object (no [__bool__], no
    [__len__]), hence always truthy. *)
Record WaveObject := MkWave {
  audio_data : list Z;
  num_channels : Z;
  bytes_per_sample : Z;
  sample_rate : Z
}.

(** Lines printed on the console. *)
Inductive Message :=
| WarnSoundNotFound (path : string)
| WarnSoundNotLoaded (path : string)
| ErrCascade
| ErrCamera (index : Z)
| MsgStarted
| ErrCapture
| MsgHumanDetected (ts : string) (face_count : nat)
| MsgNoFace (ts : string)
| MsgQuitting.

(** What the main thread does, in program order.  Assignments to the two
    loop-carried locals are recorded too, so that their place relative to
    the thread start can be read off the trace. *)
Inductive Event :=
| EPrint (m : Message)
| EWriteRow (path : string) (row : Row)
| EThreadStart (message : string) (wave : option WaveObject)
               (duration : Q) (repeat : nat)
| EAssignLastAlertTime (now : Q)
| EAssignPrevState (state : string)
| ERelease.

(** The variables of [main] that outlive one loop iteration, and the files. *)
Record Store := MkStore {
  files : gmap string (list Row);
  prev_state : option string;      (* None is Python's None *)
  last_alert_time : Q
}.

(** ---------- Configuration ---------- *)
Definition CAMERA_INDEX : Z := 0.
Definition ALERT_SOUND : string := "alert.wav".
Definition REPORT_CSV : string := "report.csv".
Definition ALERT_COOLDOWN : Q := 5.
Definition HUMAN_ALERT_DURATION : Q := 30.
Definition VOICE_MESSAGE : string := "Warning! Intruder detected!".

(** ** The main thread's monad *)

Definition M (A : Type) : Type := Store -> A * Store * list Event.

Definition ret {A} (a : A) : M A := fun st => (a, st, []).

Definition bind {A B} (m : M A) (k : A -> M B) : M B :=
  fun st =>
    let '(a, st1, out1) := m st in
    let '(b, st2, out2) := k a st1 in
    (b, st2, out1 ++ out2).

Notation "x <- m ;; k" := (bind m (fun x => k))
  (at level 100, m at next level, right associativity, only parsing).
Notation "m >> k" := (bind m (fun _ => k))
  (at level 100, right associativity, only parsing).

Definition emit (e : Event) : M unit := fun st => (tt, st, [e]).
Definition print (m : Message) : M unit := emit (EPrint m).

Definition get_files : M (gmap string (list Row)) := fun st => (files st, st, []).
Definition get_prev_state : M (option string) := fun st => (prev_state st, st, []).
Definition get_last_alert_time : M Q := fun st => (last_alert_time st, st, []).

Definition put_files (fs : gmap string (list Row)) : M unit :=
  fun st => (tt, MkStore fs (prev_state st) (last_alert_time st), []).

Definition assign_prev_state (s : string) : M unit :=
  fun st => (tt, MkStore (files st) (Some s) (last_alert_time st),
             [EAssignPrevState s]).

Definition assign_last_alert_time (t : Q) : M unit :=
  fun st => (tt, MkStore (files st) (prev_state st) t,
             [EAssignLastAlertTime t]).

(** [prev_state = None; last_alert_time = 0] (lines 92-93). *)
Definition init_locals : M unit :=
  fun st => (tt, MkStore (files st) None 0, []).

(** ** File helpers *)

Definition header : Row :=
  [CStr "timestamp"; CStr "detection"; CStr "face_count"; CStr "notes"].

(** [os.path.exists(path)] *)
Definition path_exists (fs : gmap string (list Row)) (path : string) : bool :=
  bool_decide (is_Some (fs !! path)).

(** [open(path, "w")] truncates or creates; one [writerow]. *)
Definition ensure_report_exists (path : string) : M unit :=
  fs <- get_files ;;
  if negb (path_exists fs path) then
    put_files (<[path := [header]]> fs) >>
    emit (EWriteRow path header)
  else ret tt.

(** [open(path, "a")] creates the file when it is absent; one [writerow].
    [ts] is the reading of [datetime.now()] taken inside [log_event],
    already formatted by [strftime]. *)
Definition log_event (ts : string) (path : string) (detection : string)
    (face_count : nat) (notes : string) : M unit :=
  let row := [CStr ts; CStr detection; CInt face_count; CStr notes] in
  fs <- get_files ;;
  put_files (<[path := default [] (fs !! path) ++ [row]]> fs) >>
  emit (EWriteRow path row).

(** [load_wave]: [decoded] is what [sa.WaveObject.from_wave_file(path)]
    gives, [None] standing for a raised [Exception]. *)
Definition load_wave (decoded : option WaveObject) (path : string)
  : M (option WaveObject) :=
  fs <- get_files ;;
  if negb (path_exists fs path) then
    print (WarnSoundNotFound path) >> ret None
  else
    match decoded with
    | Some w => ret (Some w)
    | None => print (WarnSoundNotLoaded path) >> ret None
    end.

(** ** The sampling loop of [main] *)

(** What one pass of the [while True] loop reads from its environment. *)
Record Frame := MkFrame {
  cap_ret : bool;        (* [ret] of [cap.read()] *)
  face_count : nat;      (* [len(faces)] *)
  now : Q;               (* [time.time()], line 112 *)
  log_ts : string;       (* formatted [datetime.now()] inside [log_event] *)
  print_ts : string;     (* formatted [datetime.now()] inside the [print] *)
  wait_key : Z           (* [cv2.waitKey(1)] *)
}.

(** [state != prev_state], with [prev_state] possibly [None]. *)
Definition state_differs (state : string) (prev : option string) : bool :=
  match prev with
  | None => true
  | Some p => negb (String.eqb state p)
  end.

(** Lines 115-132: the body of [if state != prev_state:]. *)
Definition on_change (alert_wave : option WaveObject) (f : Frame)
    (state : string) (face_count : nat) (now : Q) : M unit :=
  (if String.eqb state "human" then
     let notes := "Faces detected" in
     log_event (log_ts f) REPORT_CSV state face_count notes >>
     print (MsgHumanDetected (print_ts f) face_count) >>
     last <- get_last_alert_time ;;
     if Qle_bool ALERT_COOLDOWN (now - last) then
       emit (EThreadStart VOICE_MESSAGE alert_wave HUMAN_ALERT_DURATION 2) >>
       assign_last_alert_time now
     else ret tt
   else
     print (MsgNoFace (print_ts f))) >>
  assign_prev_state state.

(** Lines 110-132. *)
Definition handle_sample (alert_wave : option WaveObject) (f : Frame) : M unit :=
  let face_count := face_count f in
  let state := if (0 <? face_count)%nat then "human" else "no_face" in
  let now := now f in
  prev <- get_prev_state ;;
  if state_differs state prev then on_change alert_wave f state face_count now
  else ret tt.

(** [cv2.waitKey(1) & 0xFF == ord('q')] *)
Definition quit_pressed (f : Frame) : bool :=
  (Z.land (wait_key f) 255 =? 113)%Z.

(** Lines 97-142 over the frames the camera delivers; the list is the part
    of the stream that is observed, and the result tells whether the loop
    was left (by one of its two [break]s) within it. *)
Fixpoint main_loop (alert_wave : option WaveObject) (frames : list Frame)
  : M bool :=
  match frames with
  | [] => ret false
  | f :: rest =>
      if negb (cap_ret f) then print ErrCapture >> ret true
      else
        handle_sample alert_wave f >>
        if quit_pressed f then print MsgQuitting >> ret true
        else main_loop alert_wave rest
  end.

(** What [main] is started with, apart from the frames. *)
Record Env := MkEnv {
  cascade_empty : bool;                 (* [face_cascade.empty()] *)
  decoded_sound : option WaveObject;    (* [from_wave_file(ALERT_SOUND)] *)
  camera_opened : bool                  (* [cap.isOpened()] *)
}.

Definition main (E : Env) (frames : list Frame) : M unit :=
  ensure_report_exists REPORT_CSV >>
  if cascade_empty E then print ErrCascade
  else
    alert_wave <- load_wave (decoded_sound E) ALERT_SOUND ;;
    if negb (camera_opened E) then print (ErrCamera CAMERA_INDEX)
    else
      init_locals >>
      print MsgStarted >>
      left <- main_loop alert_wave frames ;;
      if left then emit ERelease   (* the [finally] clause *)
      else ret tt.

(** The frames whose sample the loop handles: up to the first failed read
    (excluded) or the first quit key (included). *)
Fixpoint handled (frames : list Frame) : list Frame :=
  match frames with
  | [] => []
  | f :: rest =>
      if negb (cap_ret f) then []
      else if quit_pressed f then [f]
      else f :: handled rest
  end.

(** The samples of a list of frames, one after the other. *)
Fixpoint run_samples (alert_wave : option WaveObject) (fs : list Frame)
  : M unit :=
  match fs with
  | [] => ret tt
  | f :: rest => handle_sample alert_wave f >> run_samples alert_wave rest
  end.

Definition store_of {A} (r : A * Store * list Event) : Store := snd (fst r).
Definition trace_of {A} (r : A * Store * list Event) : list Event := snd r.

(** The rows of the report file. *)
Definition report (st : Store) : list Row := default [] (files st !! REPORT_CSV).

Definition is_thread_start (e : Event) : bool :=
  match e with EThreadStart _ _ _ _ => true | _ => false end.

Definition is_write_row (e : Event) : bool :=
  match e with EWriteRow _ _ => true | _ => false end.

(** The clock readings [now] of the samples at which an alert thread is
    started, in order. *)
Fixpoint episode_starts (alert_wave : option WaveObject) (fs : list Frame)
    (st : Store) : list Q :=
  match fs with
  | [] => []
  | f :: rest =>
      let r := handle_sample alert_wave f st in
      (if existsb is_thread_start (trace_of r) then [now f] else [])
      ++ episode_starts alert_wave rest (store_of r)
  end.

(** ** The alert thread *)

(** Calls the alert thread makes, in program order. *)
Inductive Call :=
| TtsInit                                   (* [pyttsx3.init()] *)
| TtsSay (message : string)                 (* [engine.say(message)] *)
| TtsRunAndWait                             (* [engine.runAndWait()] *)
| WarnTts (e : string)                      (* [print("[WARN] TTS failed:", e)] *)
| PlayWaveCalled (wave : option WaveObject) (repeat_for : Q)
| WavePlay (w : WaveObject)                 (* [wave.play()] *)
| Sleep (seconds : Z).                      (* [time.sleep(1)] *)

(** How a piece of the thread ends: normally, with a raised [Exception], or
    not within the fuel given to the [while True] loop. *)
Inductive Outcome (A : Type) :=
| Done (a : A)
| Raised (e : string)
| OutOfFuel.
Arguments Done {A} a.
Arguments Raised {A} e.
Arguments OutOfFuel {A}.

Definition T (A : Type) : Type := Outcome A * list Call.

Definition tret {A} (a : A) : T A := (Done a, []).

Definition tbind {A B} (m : T A) (k : A -> T B) : T B :=
  match m with
  | (Done a, c1) => let '(o, c2) := k a in (o, c1 ++ c2)
  | (Raised e, c1) => (Raised e, c1)
  | (OutOfFuel, c1) => (OutOfFuel, c1)
  end.

Notation "m >>> k" := (tbind m (fun _ => k))
  (at level 100, right associativity, only parsing).

Definition call (c : Call) : T unit := (Done tt, [c]).

(** A call that raises when [fails] holds an exception. *)
Definition call_may_raise (c : Call) (fails : option string) : T unit :=
  match fails with
  | None => (Done tt, [c])
  | Some e => (Raised e, [c])
  end.

(** [try: body except Exception as e: handler(e)] *)
Definition try_except {A} (body : T A) (handler : string -> T A) : T A :=
  match body with
  | (Raised e, c1) => let '(o, c2) := handler e in (o, c1 ++ c2)
  | r => r
  end.

(** [for i in range(n): body(i)], counting [i] up from [i0]. *)
Fixpoint for_range (n : nat) (i0 : nat) (body : nat -> T unit) : T unit :=
  match n with
  | O => tret tt
  | S n' => body i0 >>> for_range n' (S i0) body
  end.

(** The speech engine and the clock as the thread meets them. *)
Record ThreadEnv := MkThreadEnv {
  init_raises : option string;          (* [pyttsx3.init()] *)
  say_raises : nat -> option string;    (* the i-th [engine.say] *)
  run_raises : option string;           (* [engine.runAndWait()] *)
  clock : nat -> Q                      (* the i-th [time.time()] in [play_wave] *)
}.

(** Truth value of [end_time]: [None] and [0.0] are false. *)
Definition truthy (end_time : option Q) : bool :=
  match end_time with
  | None => false
  | Some t => negb (Qeq_bool t 0)
  end.

(** Lines 47-53; [i] counts the clock readings already taken. *)
Fixpoint play_loop (clk : nat -> Q) (fuel : nat) (w : WaveObject)
    (end_time : option Q) (i : nat) : T unit :=
  match fuel with
  | O => (OutOfFuel, [])
  | S fuel' =>
      call (WavePlay w) >>>
      match end_time with
      | None => tret tt
      | Some t =>
          if negb (truthy end_time) then tret tt
          else if Qle_bool t (clk i) then tret tt
          else call (Sleep 1) >>> play_loop clk fuel' w end_time (S i)
      end
  end.

(** Lines 42-53. *)
Definition play_wave (clk : nat -> Q) (fuel : nat) (wave : option WaveObject)
    (repeat_for : Q) : T unit :=
  call (PlayWaveCalled wave repeat_for) >>>
  match wave with
  | None => tret tt
  | Some w =>
      let end_time :=
        if negb (Qle_bool repeat_for 0) then Some (clk O + repeat_for)%Q
        else None in
      play_loop clk fuel w end_time 1
  end.

(** Lines 57-61: the body of the [try]. *)
Definition speech_stage (E : ThreadEnv) (message : string) (repeat : nat)
  : T unit :=
  call_may_raise TtsInit (init_raises E) >>>
  for_range repeat 0 (fun i => call_may_raise (TtsSay message) (say_raises E i)) >>>
  call_may_raise TtsRunAndWait (run_raises E).

(** Lines 55-65. *)
Definition speak_message_then_alarm (E : ThreadEnv) (fuel : nat)
    (message : string) (wave : option WaveObject) (duration : Q)
    (repeat : nat) : T unit :=
  try_except (speech_stage E message repeat) (fun e => call (WarnTts e)) >>>
  play_wave (clock E) fuel wave duration.

Definition outcome_of {A} (r : T A) : Outcome A := fst r.
Definition calls_of {A} (r : T A) : list Call := snd r.

Definition is_say (c : Call) : bool :=
  match c with TtsSay _ => true | _ => false end.
Definition is_wave_play (c : Call) : bool :=
  match c with WavePlay _ => true | _ => false end.

Definition count_calls (p : Call -> bool) (cs : list Call) : nat :=
  length (List.filter p cs).

(** ** The spec's components, in the spec's words

    Used only to compare the loop of [main] with the spec's StateTracker
    and EventLogger. *)

Inductive PresenceState := Unknown | Absent | Present.

#[global] Instance PresenceState_eq_dec : EqDecision PresenceState.
Proof. solve_decision. Defined.

Record StateTransition := MkTransition {
  tr_from : PresenceState;
  tr_to : PresenceState;
  tr_at : Q;
  tr_subjectCount : nat
}.

(** Spec 4.1 [ingest]: the transition, if any, and the new held state. *)
Definition StateTracker_ingest (current : PresenceState) (at_ : Q)
    (subjectCount : nat) : option StateTransition * PresenceState :=
  let to := if (0 <? subjectCount)%nat then Present else Absent in
  if bool_decide (to = current) then (None, current)
  else (Some (MkTransition current to at_ subjectCount), to).

(** How [main] holds a presence state in [prev_state] and in [state]. *)
Definition encode (p : PresenceState) : option string :=
  match p with
  | Unknown => None
  | Absent => Some "no_face"
  | Present => Some "human"
  end.

Definition state_name (p : PresenceState) : string :=
  match p with
  | Present => "human"
  | _ => "no_face"
  end.

(** The number of transitions into [Present] that the spec's tracker emits
    over a sequence of subject counts. *)
Fixpoint present_entries (current : PresenceState) (counts : list nat) : nat :=
  match counts with
  | [] => 0
  | c :: rest =>
      let '(t, current') := StateTracker_ingest current 0 c in
      (match t with
       | Some tr => if bool_decide (tr_to tr = Present) then 1 else 0
       | None => 0
       end + present_entries current' rest)%nat
  end.

(** The row [log_event] writes for a sample classified as "human". *)
Definition human_row (f : Frame) (n : nat) : Row :=
  [CStr (log_ts f); CStr "human"; CInt n; CStr "Faces detected"].

(** The spec's log record (section 4.2), with [ts] for the transition's
    timestamp. *)
Definition spec_log_record (ts : string) (n : nat) : Row :=
  [CStr ts; CStr "present"; CInt n; CStr "presence detected"].

(** Where the first event satisfying [p] stands in a trace. *)
Fixpoint position (p : Event -> bool) (tr : list Event) : option nat :=
  match tr with
  | [] => None
  | e :: rest => if p e then Some O else S <$> position p rest
  end.

Definition is_assign_last_alert_time (e : Event) : bool :=
  match e with EAssignLastAlertTime _ => true | _ => false end.

(** "The cooldown clock is written before the thread is started". *)
Definition write_precedes_start (tr : list Event) : Prop :=
  exists i j,
    position is_assign_last_alert_time tr = Some i /\
    position is_thread_start tr = Some j /\
    (i < j)%nat.

(** Two episode starts are at least the cooldown apart. *)
Definition cooldown_apart (t1 t2 : Q) : Prop := (ALERT_COOLDOWN <= t2 - t1)%Q.

(** A pass enters "human" when the sample shows a face and the held state is
    not "human" already. *)
Definition enters_human (f : Frame) (st : Store) : bool :=
  (0 <? face_count f)%nat && state_differs "human" (prev_state st).

(** Calls of the speech stage. *)
Definition is_speech_call (c : Call) : bool :=
  match c with
  | TtsInit | TtsSay _ | TtsRunAndWait | WarnTts _ => true
  | _ => false
  end.

(** No call of the speech stage raises. *)
Definition speech_ok (E : ThreadEnv) (repeat : nat) : Prop :=
  init_raises E = None /\
  (forall i, (i < repeat)%nat -> say_raises E i = None) /\
  run_raises E = None.

(** A write of the header row. *)
Definition is_header_write (e : Event) : bool :=
  match e with
  | EWriteRow _ row => bool_decide (row = header)
  | _ => false
  end.

(** A row as [log_event] writes it from the loop. *)
Definition is_data_row (r : Row) : Prop :=
  exists ts n, r = [CStr ts; CStr "human"; CInt n; CStr "Faces detected"].

(** Every thread started in a trace is handed the wave [wave]. *)
Definition threads_get (wave : option WaveObject) (tr : list Event) : Prop :=
  Forall (fun e => match e with
                   | EThreadStart _ w _ _ => w = wave
                   | _ => True
                   end) tr.

(** Whether a frame shows a face, and the state the loop gives it
    (line 111). *)
Definition has_face (f : Frame) : bool := (0 <? face_count f)%nat.

Definition class_of (f : Frame) : string :=
  if has_face f then "human" else "no_face".

(** Whether the held state is "human". *)
Definition held_human (st : Store) : bool :=
  negb (state_differs "human" (prev_state st)).

(** The frames that show a face right after one that showed none;
    [prev_human] tells whether the state held before the first is "human". *)
Fixpoint entering (prev_human : bool) (fs : list Frame) : list Frame :=
  match fs with
  | [] => []
  | f :: rest =>
      (if has_face f && negb prev_human then [f] else [])
      ++ entering (has_face f) rest
  end.

(** A frame at which the loop is left. *)
Definition is_break (f : Frame) : bool := negb (cap_ret f) || quit_pressed f.

Definition is_sleep (c : Call) : bool :=
  match c with Sleep _ => true | _ => false end.

Definition is_release (e : Event) : bool :=
  match e with ERelease => true | _ => false end.

(** Spec 4.3 in the spec's words: [elapsed >= cooldownSeconds], where an
    orchestrator that has never fired ([None]) has [elapsed = +infinity]. *)
Definition cooldown_elapsed (lastAlertStartedAt : option Q) (at_ : Q) : bool :=
  match lastAlertStartedAt with
  | None => true
  | Some t => Qle_bool ALERT_COOLDOWN (at_ - t)
  end.

(** Spec 4.3 [onTransition] over a sequence of samples: the times of the
    transitions into Present at which an episode is started. *)
Fixpoint AlertOrchestrator_starts (lastAlertStartedAt : option Q)
    (present : bool) (fs : list Frame) : list Q :=
  match fs with
  | [] => []
  | f :: rest =>
      if has_face f && negb present
         && cooldown_elapsed lastAlertStartedAt (now f)
      then now f :: AlertOrchestrator_starts (Some (now f)) (has_face f) rest
      else AlertOrchestrator_starts lastAlertStartedAt (has_face f) rest
  end.

(** The spec's column names (section 6). *)
Definition spec_header : Row :=
  [CStr "timestamp"; CStr "detection_state"; CStr "subject_count"; CStr "notes"].

(** A frame read without failure, for the worked runs. *)
Definition sample_frame (count : nat) (t : Z) (key : Z) : Frame :=
  MkFrame true count (inject_Z t) "ts" "ts" key.

(** * Properties *)

(** ** Running the two monads *)

Ltac run_M :=
  unfold handle_sample, on_change, log_event, ensure_report_exists, load_wave,
    print, emit, assign_prev_state, assign_last_alert_time, init_locals,
    get_files, get_prev_state, get_last_alert_time, put_files, bind, ret,
    store_of, trace_of in *;
  cbn [files prev_state last_alert_time fst snd app] in *.

Lemma state_differs_encode (n : nat) (cur : PresenceState) :
  state_differs (if (0 <? n)%nat then "human" else "no_face") (encode cur)
  = negb (bool_decide ((if (0 <? n)%nat then Present else Absent) = cur)).
Proof. destruct cur, (0 <? n)%nat; reflexivity. Qed.

Lemma handle_sample_eq (wave : option WaveObject) (f : Frame) (st : Store) :
  handle_sample wave f st =
  let state := if (0 <? face_count f)%nat then "human" else "no_face" in
  if state_differs state (prev_state st)
  then on_change wave f state (face_count f) (now f) st
  else (tt, st, []).
Proof.
  unfold handle_sample, bind, get_prev_state. cbn zeta.
  destruct (state_differs _ _); [| reflexivity].
  destruct (on_change _ _ _ _ _ _) as [[[] ?] ?]. reflexivity.
Qed.

Lemma on_change_human (wave : option WaveObject) (f : Frame) (n : nat)
    (t : Q) (st : Store) :
  on_change wave f "human" n t st =
  let fs' := <[REPORT_CSV := report st ++ [human_row f n]]> (files st) in
  if Qle_bool ALERT_COOLDOWN (t - last_alert_time st) then
    (tt, MkStore fs' (Some "human") t,
     [EWriteRow REPORT_CSV (human_row f n);
      EPrint (MsgHumanDetected (print_ts f) n);
      EThreadStart VOICE_MESSAGE wave HUMAN_ALERT_DURATION 2;
      EAssignLastAlertTime t;
      EAssignPrevState "human"])
  else
    (tt, MkStore fs' (Some "human") (last_alert_time st),
     [EWriteRow REPORT_CSV (human_row f n);
      EPrint (MsgHumanDetected (print_ts f) n);
      EAssignPrevState "human"]).
Proof.
  unfold on_change. change ("human" =? "human") with true. cbv iota.
  run_M. unfold report, human_row.
  destruct (Qle_bool _ _); reflexivity.
Qed.

Lemma on_change_no_face (wave : option WaveObject) (f : Frame) (n : nat)
    (t : Q) (st : Store) :
  on_change wave f "no_face" n t st =
  (tt, MkStore (files st) (Some "no_face") (last_alert_time st),
   [EPrint (MsgNoFace (print_ts f)); EAssignPrevState "no_face"]).
Proof. reflexivity. Qed.

(** C1. The loop body agrees with the spec's state tracker: with the held
    state [cur] stored in [prev_state], the sample is classified as Present
    exactly when its face count is positive ([main] starts the loop with
    Unknown held); when the class equals [cur],
    nothing is emitted and the store is unchanged; when it differs, the
    change branch runs with the new state and the sample's face count, the
    transition goes from [cur] to the new state, and [prev_state] holds the
    new state afterwards. *)
Theorem C1_tracker_transition
    (wave : option WaveObject) (f : Frame) (fs : gmap string (list Row))
    (last : Q) (cur : PresenceState) :
  let st := MkStore fs (encode cur) last in
  let r := handle_sample wave f st in
  let to := if (0 <? face_count f)%nat then Present else Absent in
  prev_state (store_of (init_locals st)) = encode Unknown /\
  (to = Present <-> (0 < face_count f)%nat) /\
  match StateTracker_ingest cur (now f) (face_count f) with
  | (None, cur') =>
      to = cur /\ cur' = cur /\ r = (tt, st, [])
  | (Some tr, cur') =>
      to <> cur /\
      tr = MkTransition cur to (now f) (face_count f) /\
      cur' = to /\
      r = on_change wave f (state_name (tr_to tr)) (tr_subjectCount tr)
            (tr_at tr) st /\
      prev_state (store_of r) = encode cur' /\
      List.last (trace_of r) ERelease = EAssignPrevState (state_name to)
  end.
Proof.
  intros st r to. split; [reflexivity |]. split.
  - subst to. destruct (Nat.ltb_spec 0 (face_count f));
      split; intros; try lia; try discriminate; reflexivity.
  - subst r. rewrite handle_sample_eq. cbn zeta.
    unfold StateTracker_ingest. cbn [prev_state st].
    rewrite state_differs_encode. fold to.
    destruct (bool_decide_reflect (to = cur)) as [Heq | Hne]; cbn [negb].
    + repeat split; auto.
    + cbn [tr_to tr_subjectCount tr_at].
      assert (Hname : (if (0 <? face_count f)%nat then "human" else "no_face")
                      = state_name to)
        by (subst to; destruct (0 <? face_count f)%nat; reflexivity).
      rewrite Hname.
      repeat split; auto.
      * subst to. destruct (0 <? face_count f)%nat; cbn [state_name].
        -- rewrite on_change_human. cbn zeta.
           destruct (Qle_bool _ _); reflexivity.
        -- rewrite on_change_no_face. reflexivity.
      * subst to. destruct (0 <? face_count f)%nat; cbn [state_name].
        -- rewrite on_change_human. cbn zeta.
           destruct (Qle_bool _ _); reflexivity.
        -- rewrite on_change_no_face. reflexivity.
Qed.

Lemma store_of_bind {A B} (m : M A) (k : A -> M B) (st : Store) :
  store_of (bind m k st) = store_of (k (fst (fst (m st))) (store_of (m st))).
Proof.
  unfold bind, store_of. destruct (m st) as [[a st1] o1]. cbn [fst snd].
  destruct (k a st1) as [[b st2] o2]. reflexivity.
Qed.

Lemma trace_of_bind {A B} (m : M A) (k : A -> M B) (st : Store) :
  trace_of (bind m k st) =
  trace_of (m st) ++ trace_of (k (fst (fst (m st))) (store_of (m st))).
Proof.
  unfold bind, store_of, trace_of. destruct (m st) as [[a st1] o1]. cbn [fst snd].
  destruct (k a st1) as [[b st2] o2]. reflexivity.
Qed.

(** ** The cooldown clock and the thread start *)

Lemma handle_sample_starts (wave : option WaveObject) (f : Frame) (st : Store) :
  existsb is_thread_start (trace_of (handle_sample wave f st)) =
  (0 <? face_count f)%nat && state_differs "human" (prev_state st)
  && Qle_bool ALERT_COOLDOWN (now f - last_alert_time st).
Proof.
  rewrite handle_sample_eq. cbn zeta.
  destruct (0 <? face_count f)%nat; cbn [andb].
  - destruct (state_differs "human" (prev_state st)); cbn [andb]; [| reflexivity].
    rewrite on_change_human. cbn zeta.
    destruct (Qle_bool _ _); reflexivity.
  - destruct (state_differs "no_face" (prev_state st)); [| reflexivity].
    rewrite on_change_no_face. reflexivity.
Qed.

(** C2 fails as stated: in the pass that starts the alert thread, the thread
    start stands at position 2 of the trace and the write of
    [last_alert_time] at position 3. *)
Lemma C2_start_precedes_write :
  let f := MkFrame true 1 100 "2024-01-01 00:01:40" "2024-01-01 00:01:40" (-1) in
  let tr := trace_of (handle_sample None f (MkStore ∅ None 0)) in
  position is_thread_start tr = Some 2%nat /\
  position is_assign_last_alert_time tr = Some 3%nat /\
  ~ write_precedes_start tr.
Proof.
  cbv zeta. rewrite handle_sample_eq. cbn zeta.
  change (state_differs _ _) with true. cbv iota.
  rewrite on_change_human. cbn zeta.
  change (Qle_bool _ _) with true. cbv iota.
  cbn [trace_of snd]. repeat split.
  intros (i & j & Hi & Hj & Hlt).
  cbn in Hi, Hj. injection Hi as <-. injection Hj as <-. lia.
Qed.

(** C2, amended. A pass that starts the alert thread does, in this order:
    the log row, the console line, the thread start, the write of
    [last_alert_time] with the pass's own [now], the write of [prev_state];
    so the write directly follows the start, within the same pass, and the
    store the next sample meets holds the new value. *)
Theorem C2_write_follows_start
    (wave : option WaveObject) (f : Frame) (st : Store)
    (Hstart : existsb is_thread_start (trace_of (handle_sample wave f st)) = true) :
  trace_of (handle_sample wave f st) =
    [EWriteRow REPORT_CSV (human_row f (face_count f));
     EPrint (MsgHumanDetected (print_ts f) (face_count f));
     EThreadStart VOICE_MESSAGE wave HUMAN_ALERT_DURATION 2;
     EAssignLastAlertTime (now f);
     EAssignPrevState "human"] /\
  last_alert_time (store_of (handle_sample wave f st)) = now f.
Proof.
  rewrite handle_sample_starts in Hstart.
  apply andb_prop in Hstart as [H12 Hc]. apply andb_prop in H12 as [Hn Hd].
  rewrite handle_sample_eq. cbn zeta. rewrite Hn, Hd.
  rewrite on_change_human. cbn zeta. rewrite Hc. split; reflexivity.
Qed.

Lemma C2_write_follows_start_witness :
  let f := MkFrame true 1 100 "2024-01-01 00:01:40" "2024-01-01 00:01:40" (-1) in
  let st := MkStore ∅ None 0 in
  trace_of (handle_sample None f st) =
    [EWriteRow REPORT_CSV (human_row f 1);
     EPrint (MsgHumanDetected (print_ts f) 1);
     EThreadStart VOICE_MESSAGE None HUMAN_ALERT_DURATION 2;
     EAssignLastAlertTime 100;
     EAssignPrevState "human"] /\
  last_alert_time (store_of (handle_sample None f st)) = 100%Q.
Proof.
  cbv zeta.
  apply (C2_write_follows_start None
           (MkFrame true 1 100 "2024-01-01 00:01:40" "2024-01-01 00:01:40" (-1))
           (MkStore ∅ None 0)).
  vm_compute. reflexivity.
Defined.

(** ** The cooldown *)

Lemma cooldown_nonneg : (0 <= ALERT_COOLDOWN)%Q.
Proof. unfold ALERT_COOLDOWN. lra. Qed.

Lemma handle_sample_last_alert (wave : option WaveObject) (f : Frame) (st : Store) :
  last_alert_time (store_of (handle_sample wave f st)) =
  if existsb is_thread_start (trace_of (handle_sample wave f st))
  then now f else last_alert_time st.
Proof.
  rewrite handle_sample_eq. cbn zeta.
  destruct (0 <? face_count f)%nat.
  - destruct (state_differs "human" (prev_state st)); [| reflexivity].
    rewrite on_change_human. cbn zeta.
    destruct (Qle_bool _ _); reflexivity.
  - destruct (state_differs "no_face" (prev_state st)); reflexivity.
Qed.

Lemma episode_starts_after (wave : option WaveObject) (fs : list Frame) :
  forall st,
    Forall (fun t => (last_alert_time st + ALERT_COOLDOWN <= t)%Q)
           (episode_starts wave fs st).
Proof.
  pose proof cooldown_nonneg as Hc.
  induction fs as [| f rest IH]; intros st; cbn [episode_starts].
  - constructor.
  - specialize (IH (store_of (handle_sample wave f st))).
    rewrite handle_sample_last_alert in IH.
    destruct (existsb is_thread_start (trace_of (handle_sample wave f st))) eqn:Hs.
    + rewrite handle_sample_starts in Hs.
      apply andb_prop in Hs as [_ Hq]. apply Qle_bool_iff in Hq.
      cbn [app]. constructor; [lra |].
      eapply Forall_impl; [exact IH |]. cbv beta. intros t Ht. lra.
    + cbn [app]. exact IH.
Qed.

Lemma handle_sample_start_events (wave : option WaveObject) (f : Frame)
    (st : Store) :
  List.filter is_thread_start (trace_of (handle_sample wave f st)) =
  if existsb is_thread_start (trace_of (handle_sample wave f st))
  then [EThreadStart VOICE_MESSAGE wave HUMAN_ALERT_DURATION 2]
  else [].
Proof.
  rewrite handle_sample_eq. cbn zeta.
  destruct (0 <? face_count f)%nat.
  - destruct (state_differs "human" (prev_state st)); [| reflexivity].
    rewrite on_change_human. cbn zeta.
    destruct (Qle_bool _ _); reflexivity.
  - destruct (state_differs "no_face" (prev_state st)); reflexivity.
Qed.

(** The loop starts its threads at the samples [episode_starts] lists. *)
Lemma main_loop_starts (wave : option WaveObject) (frames : list Frame) :
  forall st,
    length (List.filter is_thread_start (trace_of (main_loop wave frames st)))
    = length (episode_starts wave (handled frames) st).
Proof.
  induction frames as [| f rest IH]; intros st; cbn [main_loop handled].
  - reflexivity.
  - destruct (negb (cap_ret f)); [reflexivity |].
    rewrite trace_of_bind, List.filter_app, length_app.
    rewrite handle_sample_start_events.
    destruct (quit_pressed f); cbn [episode_starts]; rewrite length_app.
    + destruct (existsb _ _); reflexivity.
    + rewrite IH. destruct (existsb _ _); reflexivity.
Qed.

Lemma main_loop_store (wave : option WaveObject) (frames : list Frame) :
  forall st,
    store_of (main_loop wave frames st)
    = store_of (run_samples wave (handled frames) st).
Proof.
  induction frames as [| f rest IH]; intros st; cbn [main_loop handled].
  - reflexivity.
  - destruct (negb (cap_ret f)); [reflexivity |].
    destruct (quit_pressed f); cbn [run_samples]; rewrite !store_of_bind.
    + reflexivity.
    + apply IH.
Qed.

(** [main] starts with [last_alert_time = 0]: at a clock reading below the
    cooldown (3 here, a clock set to the first seconds of 1970) the first
    change to "human" of a run is logged but starts no alert thread. *)
Example clock_reading_3_starts_no_thread :
  let f := MkFrame true 1 3 "1970-01-01 00:00:03" "1970-01-01 00:00:03" 113 in
  let r := main (MkEnv false None true) [f] (MkStore ∅ None 0) in
  trace_of r =
    [EWriteRow REPORT_CSV header;
     EPrint (WarnSoundNotFound ALERT_SOUND);
     EPrint MsgStarted;
     EWriteRow REPORT_CSV (human_row f 1);
     EPrint (MsgHumanDetected (print_ts f) 1);
     EAssignPrevState "human";
     EPrint MsgQuitting;
     ERelease] /\
  existsb is_thread_start (trace_of r) = false.
Proof. vm_compute. split; reflexivity. Qed.

(** A pass starts an alert thread exactly when the sample changes the
    state to "human" and [now - last_alert_time] is at least the cooldown,
    [last_alert_time] being 0 until the first start; hence no thread is
    started while [now - last_alert_time < ALERT_COOLDOWN], and over any
    sequence of samples every start is at least the cooldown after the
    stored [last_alert_time] and any two starts are at least the cooldown
    apart ([episode_starts] lists the clock readings of the samples at
    which the loop starts a thread). *)
Lemma cooldown_invariant
    (wave : option WaveObject) (f : Frame) (fs : list Frame) (st : Store) :
  existsb is_thread_start (trace_of (handle_sample wave f st)) =
    (0 <? face_count f)%nat && state_differs "human" (prev_state st)
    && Qle_bool ALERT_COOLDOWN (now f - last_alert_time st) /\
  ~ ((now f - last_alert_time st < ALERT_COOLDOWN)%Q /\
     existsb is_thread_start (trace_of (handle_sample wave f st)) = true) /\
  last_alert_time (store_of (main (MkEnv false None true) [] st)) = 0%Q /\
  length (List.filter is_thread_start (trace_of (main_loop wave fs st)))
    = length (episode_starts wave (handled fs) st) /\
  Forall (fun t => (ALERT_COOLDOWN <= t - last_alert_time st)%Q)
         (episode_starts wave fs st) /\
  StronglySorted cooldown_apart (episode_starts wave fs st).
Proof.
  split; [apply handle_sample_starts |].
  split; [| split; [| split; [apply main_loop_starts | split]]].
  - intros [Hlt Hs]. rewrite handle_sample_starts in Hs.
    apply andb_prop in Hs as [_ Hq]. apply Qle_bool_iff in Hq. lra.
  - unfold main. run_M. cbn.
    destruct (negb (path_exists (files st) REPORT_CSV)) eqn:H1; cbn;
      destruct (negb (path_exists _ ALERT_SOUND)); reflexivity.
  - eapply Forall_impl; [apply episode_starts_after |].
    cbv beta. intros t Ht. lra.
  - revert st. induction fs as [| g rest IH]; intros st; cbn [episode_starts].
    + constructor.
    + destruct (existsb is_thread_start (trace_of (handle_sample wave g st))) eqn:Hs;
        cbn [app]; [| apply IH].
      constructor; [apply IH |].
      pose proof (episode_starts_after wave rest (store_of (handle_sample wave g st))) as Ha.
      rewrite handle_sample_last_alert, Hs in Ha.
      eapply Forall_impl; [exact Ha |]. cbv beta. unfold cooldown_apart.
      intros t Ht. lra.
Qed.

(** ** The event log *)

Lemma store_of_break (m : Message) (st : Store) :
  store_of (bind (print m) (fun _ => ret true) st) = st.
Proof. reflexivity. Qed.

Lemma store_of_finally (b : bool) (st : Store) :
  store_of ((if b then emit ERelease else ret tt) st) = st.
Proof. destruct b; reflexivity. Qed.

Lemma no_header_in_finally (b : bool) (st : Store) :
  List.filter is_header_write
    (trace_of ((if b then emit ERelease else ret tt) st)) = [].
Proof. destruct b; reflexivity. Qed.

Lemma handle_sample_files (wave : option WaveObject) (f : Frame) (st : Store) :
  files (store_of (handle_sample wave f st)) =
  if enters_human f st
  then <[REPORT_CSV := report st ++ [human_row f (face_count f)]]> (files st)
  else files st.
Proof.
  unfold enters_human. rewrite handle_sample_eq. cbn zeta.
  destruct (0 <? face_count f)%nat; cbn [andb].
  - destruct (state_differs "human" (prev_state st)); [| reflexivity].
    rewrite on_change_human. cbn zeta. destruct (Qle_bool _ _); reflexivity.
  - destruct (state_differs "no_face" (prev_state st)); reflexivity.
Qed.

Lemma handle_sample_writes (wave : option WaveObject) (f : Frame) (st : Store) :
  filter (fun e => is_write_row e = true) (trace_of (handle_sample wave f st)) =
  if enters_human f st
  then [EWriteRow REPORT_CSV (human_row f (face_count f))]
  else [].
Proof.
  unfold enters_human. rewrite handle_sample_eq. cbn zeta.
  destruct (0 <? face_count f)%nat; cbn [andb].
  - destruct (state_differs "human" (prev_state st)); [| reflexivity].
    rewrite on_change_human. cbn zeta. destruct (Qle_bool _ _); reflexivity.
  - destruct (state_differs "no_face" (prev_state st)); reflexivity.
Qed.

Lemma handle_sample_report (wave : option WaveObject) (f : Frame) (st : Store) :
  report (store_of (handle_sample wave f st)) =
  if enters_human f st
  then report st ++ [human_row f (face_count f)]
  else report st.
Proof.
  unfold report at 1. rewrite handle_sample_files.
  destruct (enters_human f st); [| reflexivity].
  rewrite lookup_insert_eq. reflexivity.
Qed.

Lemma handle_sample_prev (wave : option WaveObject) (f : Frame) (st : Store)
    (cur : PresenceState) :
  prev_state st = encode cur ->
  prev_state (store_of (handle_sample wave f st)) =
    encode (snd (StateTracker_ingest cur (now f) (face_count f))) /\
  enters_human f st =
    match fst (StateTracker_ingest cur (now f) (face_count f)) with
    | Some tr => bool_decide (tr_to tr = Present)
    | None => false
    end.
Proof.
  intros Hp. unfold enters_human. rewrite handle_sample_eq. cbn zeta.
  unfold StateTracker_ingest. rewrite Hp.
  destruct cur, (0 <? face_count f)%nat; cbn;
    rewrite ?on_change_human; cbn zeta;
    repeat (destruct (Qle_bool _ _)); cbn; auto.
Qed.

Lemma present_entries_time (cur : PresenceState) (t : Q) (c : nat) :
  StateTracker_ingest cur 0 c =
  (match fst (StateTracker_ingest cur t c) with
   | Some tr => Some (MkTransition (tr_from tr) (tr_to tr) 0 (tr_subjectCount tr))
   | None => None
   end, snd (StateTracker_ingest cur t c)).
Proof.
  unfold StateTracker_ingest. destruct (bool_decide _); reflexivity.
Qed.

Lemma main_loop_report (wave : option WaveObject) (frames : list Frame) :
  forall (st : Store) (cur : PresenceState),
    prev_state st = encode cur ->
    length (report (store_of (main_loop wave frames st))) =
    (length (report st)
     + present_entries cur (map face_count (handled frames)))%nat.
Proof.
  induction frames as [| f rest IH]; intros st cur Hp.
  - cbn. lia.
  - cbn [main_loop handled].
    destruct (negb (cap_ret f)); [cbn; lia |].
    rewrite store_of_bind.
    destruct (handle_sample_prev wave f st cur Hp) as [Hp' He].
    assert (Hstep :
      length (report (store_of (handle_sample wave f st))) =
      (length (report st) +
       match fst (StateTracker_ingest cur 0 (face_count f)) with
       | Some tr => if bool_decide (tr_to tr = Present) then 1 else 0
       | None => 0
       end)%nat).
    { rewrite handle_sample_report, He, (present_entries_time cur (now f)).
      cbn [fst]. destruct (fst (StateTracker_ingest cur (now f) (face_count f)));
        cbn [tr_to]; [| lia].
      destruct (bool_decide _); rewrite ?length_app; cbn; lia. }
    assert (Hcur : snd (StateTracker_ingest cur 0 (face_count f)) =
                   snd (StateTracker_ingest cur (now f) (face_count f)))
      by (rewrite (present_entries_time cur (now f)); reflexivity).
    destruct (quit_pressed f).
    + cbn [map present_entries].
      destruct (StateTracker_ingest cur 0 (face_count f)) as [t c'] eqn:Hi.
      cbn [fst snd] in *.
      rewrite store_of_break.
      rewrite Hstep. lia.
    + cbn [map present_entries].
      destruct (StateTracker_ingest cur 0 (face_count f)) as [t c'] eqn:Hi.
      cbn [fst snd] in *. subst c'.
      rewrite (IH _ _ Hp'), Hstep. lia.
Qed.

(** C4. For the transition the spec's tracker emits on a sample, the loop
    appends exactly one row to the report when the transition enters
    Present, and leaves the files untouched (and writes no row) when it
    enters Absent or when there is no transition; over the frames the loop
    handles, the report grows by the number of transitions into Present;
    for the counts 0,0,2,2,0 that number is 1. *)
Theorem C4_one_row_per_present_entry
    (wave : option WaveObject) (f : Frame) (frames : list Frame)
    (fs : gmap string (list Row)) (last : Q) (cur : PresenceState) :
  let st := MkStore fs (encode cur) last in
  let r := handle_sample wave f st in
  let row := human_row f (face_count f) in
  match fst (StateTracker_ingest cur (now f) (face_count f)) with
  | Some tr =>
      if bool_decide (tr_to tr = Present) then
        files (store_of r) = <[REPORT_CSV := report st ++ [row]]> fs /\
        report (store_of r) = report st ++ [row] /\
        filter (fun e => is_write_row e = true) (trace_of r)
          = [EWriteRow REPORT_CSV row]
      else
        files (store_of r) = fs /\
        filter (fun e => is_write_row e = true) (trace_of r) = []
  | None =>
      files (store_of r) = fs /\
      filter (fun e => is_write_row e = true) (trace_of r) = []
  end /\
  length (report (store_of (main_loop wave frames st))) =
    (length (report st)
     + present_entries cur (map face_count (handled frames)))%nat /\
  present_entries Unknown [0; 0; 2; 2; 0]%nat = 1%nat.
Proof.
  intros st r row. split; [| split].
  - destruct (handle_sample_prev wave f st cur eq_refl) as [_ He].
    subst r row. rewrite handle_sample_files, handle_sample_report,
      handle_sample_writes, He.
    destruct (fst (StateTracker_ingest cur (now f) (face_count f))) as [tr |];
      [destruct (bool_decide (tr_to tr = Present)) |]; auto.
  - apply main_loop_report. reflexivity.
  - reflexivity.
Qed.

(** C5 fails as stated: the row written for a change to "human" holds the
    state "human" and the notes "Faces detected", whatever the timestamp. *)
Lemma C5_row_is_not_spec_record :
  let f := MkFrame true 2 100 "2024-01-01 00:01:41" "2024-01-01 00:01:41" (-1) in
  let r := handle_sample None f (MkStore ∅ None 0) in
  report (store_of r) =
    [[CStr "2024-01-01 00:01:41"; CStr "human"; CInt 2; CStr "Faces detected"]] /\
  ~ exists ts, report (store_of r) = [spec_log_record ts 2].
Proof.
  cbv zeta. rewrite handle_sample_report.
  change (enters_human _ _) with true. cbv iota.
  split; [reflexivity |].
  intros [ts Hts]. vm_compute in Hts. discriminate Hts.
Qed.

(** C5, amended. The row appended for a change to "human" is
    [log_ts; "human"; face_count; "Faces detected"]: its timestamp is the
    reading of [datetime.now()] taken inside [log_event] (not the [now] of
    the sample), its state is "human" and its notes are the fixed string
    "Faces detected". *)
Theorem C5_row_content
    (wave : option WaveObject) (f : Frame) (st : Store)
    (Hin : enters_human f st = true) :
  report (store_of (handle_sample wave f st)) =
    report st ++
    [[CStr (log_ts f); CStr "human"; CInt (face_count f); CStr "Faces detected"]] /\
  filter (fun e => is_write_row e = true) (trace_of (handle_sample wave f st)) =
    [EWriteRow REPORT_CSV
       [CStr (log_ts f); CStr "human"; CInt (face_count f); CStr "Faces detected"]].
Proof.
  rewrite handle_sample_report, handle_sample_writes, Hin. split; reflexivity.
Qed.

Lemma C5_row_content_witness :
  let f := MkFrame true 2 100 "2024-01-01 00:01:41" "2024-01-01 00:01:40" (-1) in
  let st := MkStore ∅ (Some "no_face") 0 in
  report (store_of (handle_sample None f st)) =
    report st ++
    [[CStr "2024-01-01 00:01:41"; CStr "human"; CInt 2; CStr "Faces detected"]] /\
  filter (fun e => is_write_row e = true) (trace_of (handle_sample None f st)) =
    [EWriteRow REPORT_CSV
       [CStr "2024-01-01 00:01:41"; CStr "human"; CInt 2; CStr "Faces detected"]].
Proof.
  cbv zeta.
  apply (C5_row_content None
           (MkFrame true 2 100 "2024-01-01 00:01:41" "2024-01-01 00:01:40" (-1))
           (MkStore ∅ (Some "no_face") 0)).
  vm_compute. reflexivity.
Defined.

(** ** The alert thread: speech, then alarm *)

Lemma tbind_done {A B} (a : A) (c : list Call) (k : A -> T B) :
  tbind (Done a, c) k = (outcome_of (k a), c ++ calls_of (k a)).
Proof. unfold tbind, outcome_of, calls_of. destruct (k a). reflexivity. Qed.

Lemma for_range_say (E : ThreadEnv) (m : string) (n : nat) :
  forall i0,
    let r := for_range n i0 (fun i => call_may_raise (TtsSay m) (say_raises E i)) in
    outcome_of r <> OutOfFuel /\
    Forall (fun c => c = TtsSay m) (calls_of r) /\
    (length (calls_of r) <= n)%nat /\
    ((forall i, (i0 <= i < i0 + n)%nat -> say_raises E i = None) ->
     r = (Done tt, replicate n (TtsSay m))).
Proof.
  induction n as [| n IH]; intros i0; cbn zeta.
  - cbn. split; [discriminate |]. split; [constructor |]. split; [lia | reflexivity].
  - cbn [for_range]. specialize (IH (S i0)). cbn zeta in IH.
    destruct IH as (Ho & Hc & Hl & Hall).
    destruct (say_raises E i0) as [e |] eqn:Hs.
    + cbn. split; [discriminate |]. split; [repeat constructor |].
      split; [lia |].
      intros H. rewrite (H i0) in Hs by lia. discriminate.
    + change (call_may_raise (TtsSay m) None) with (@Done unit tt, [TtsSay m]).
      rewrite tbind_done.
      cbn [outcome_of calls_of fst snd app length].
      split; [exact Ho |]. split; [constructor; [reflexivity | exact Hc] |].
      split; [lia |].
      intros H. rewrite Hall by (intros i Hi; apply H; lia). reflexivity.
Qed.

Lemma count_calls_app (p : Call -> bool) (a b : list Call) :
  count_calls p (a ++ b) = (count_calls p a + count_calls p b)%nat.
Proof. unfold count_calls. rewrite List.filter_app, length_app. reflexivity. Qed.

Lemma count_calls_le (p : Call -> bool) (a : list Call) :
  (count_calls p a <= length a)%nat.
Proof. unfold count_calls. apply List.filter_length_le. Qed.

Lemma speech_stage_cases (E : ThreadEnv) (m : string) (n : nat) :
  outcome_of (speech_stage E m n) <> OutOfFuel /\
  forallb is_speech_call (calls_of (speech_stage E m n)) = true /\
  (count_calls is_say (calls_of (speech_stage E m n)) <= n)%nat.
Proof.
  unfold speech_stage.
  destruct (init_raises E) as [e |]; cbn [call_may_raise].
  - split; [discriminate |]. split; [reflexivity |]. cbn. lia.
  - rewrite tbind_done.
    destruct (for_range_say E m n 0%nat) as (Ho & Hc & Hl & _). cbn zeta in *.
    set (fr := for_range n 0 _) in *.
    assert (Hsp : forallb is_speech_call (calls_of fr) = true).
    { apply forallb_forall. intros c Hin.
      rewrite Forall_forall in Hc. rewrite (Hc c); [reflexivity |].
      apply list_elem_of_In. exact Hin. }
    assert (Hcount : (count_calls is_say (calls_of fr) <= n)%nat)
      by (etransitivity; [apply count_calls_le | exact Hl]).
    destruct fr as [[[] | e |] c]; cbn [outcome_of calls_of fst snd] in *.
    + rewrite tbind_done.
      cbn [outcome_of calls_of fst snd].
      rewrite !forallb_app, !count_calls_app, Hsp.
      destruct (run_raises E); cbn [call_may_raise fst snd];
        (split; [discriminate |]); (split; [reflexivity |]);
        cbn; lia.
    + cbn [tbind outcome_of calls_of fst snd].
      rewrite !forallb_app, !count_calls_app, Hsp.
      split; [discriminate |]. split; [reflexivity |]. cbn. lia.
    + congruence.
Qed.

Lemma speech_try (E : ThreadEnv) (m : string) (n : nat) :
  try_except (speech_stage E m n) (fun e => call (WarnTts e)) =
  (Done tt,
   calls_of (speech_stage E m n) ++
   match outcome_of (speech_stage E m n) with
   | Raised e => [WarnTts e]
   | _ => []
   end).
Proof.
  destruct (speech_stage_cases E m n) as (Ho & _ & _).
  destruct (speech_stage E m n) as [[[] | e |] c];
    cbn [outcome_of calls_of fst snd try_except call] in *.
  - rewrite app_nil_r. reflexivity.
  - reflexivity.
  - congruence.
Qed.

Lemma play_wave_calls (clk : nat -> Q) (fuel : nat) (wave : option WaveObject)
    (d : Q) :
  exists rest,
    calls_of (play_wave clk fuel wave d) = PlayWaveCalled wave d :: rest /\
    forallb (fun c => negb (is_speech_call c)) rest = true /\
    match wave, fuel with
    | Some w, S _ => exists rest', rest = WavePlay w :: rest'
    | _, _ => True
    end.
Proof.
  unfold play_wave, call. rewrite tbind_done. cbn [app calls_of snd].
  eexists. split; [reflexivity |]. destruct wave as [w |]; [| split; reflexivity].
  set (et := if negb (Qle_bool d 0) then _ else _). clearbody et.
  split.
  - generalize 1%nat. induction fuel as [| fuel IH]; intros i; [reflexivity |].
    cbn [play_loop]. unfold call. rewrite tbind_done. cbn [app calls_of snd forallb].
    cbn [is_speech_call negb andb].
    destruct et as [t |]; [| reflexivity].
    destruct (negb (truthy (Some t))); [reflexivity |].
    destruct (Qle_bool t (clk i)); [reflexivity |].
    rewrite tbind_done. cbn [app calls_of snd forallb is_speech_call negb andb].
    apply IH.
  - destruct fuel; [exact I |]. cbn [play_loop]. unfold call.
    rewrite tbind_done. cbn [app calls_of snd]. eexists. reflexivity.
Qed.

(** C6. Whatever the speech engine does (its initialisation, any utterance
    or the run raising an exception), the speech stage ends normally: the
    exception is caught and answered with one warning; [play_wave] is then
    called with the wave and the duration, and the episode ends the way
    [play_wave] ends; with a loaded wave the first thing [play_wave] does
    is one [wave.play()]. *)
Theorem C6_alarm_follows_speech
    (E : ThreadEnv) (fuel : nat) (message : string)
    (wave : option WaveObject) (duration : Q) (repeat : nat) :
  let speech := speech_stage E message repeat in
  let s := try_except speech (fun e => call (WarnTts e)) in
  let p := play_wave (clock E) fuel wave duration in
  let r := speak_message_then_alarm E fuel message wave duration repeat in
  outcome_of s = Done tt /\
  calls_of s = calls_of speech ++
               match outcome_of speech with
               | Raised e => [WarnTts e]
               | _ => []
               end /\
  forallb is_speech_call (calls_of s) = true /\
  r = (outcome_of p, calls_of s ++ calls_of p) /\
  exists rest,
    calls_of p = PlayWaveCalled wave duration :: rest /\
    forallb (fun c => negb (is_speech_call c)) rest = true /\
    match wave, fuel with
    | Some w, S _ => exists rest', rest = WavePlay w :: rest'
    | _, _ => True
    end.
Proof.
  intros speech s p r. subst s r. unfold speak_message_then_alarm.
  fold speech. fold p. subst speech. rewrite speech_try.
  cbn [outcome_of calls_of fst snd].
  split; [reflexivity |]. split; [reflexivity |]. split; [| split].
  - destruct (speech_stage_cases E message repeat) as (_ & Hsp & _).
    rewrite forallb_app, Hsp.
    destruct (outcome_of (speech_stage E message repeat)); reflexivity.
  - rewrite tbind_done. reflexivity.
  - apply play_wave_calls.
Qed.

Lemma count_says_replicate (n : nat) (m : string) :
  count_calls is_say (replicate n (TtsSay m)) = n.
Proof.
  unfold count_calls. induction n as [| k IH]; [reflexivity |].
  cbn. f_equal. exact IH.
Qed.

(** C7 fails as stated, twice over.  When [pyttsx3.init()] raises, an
    episode asked for two utterances makes no [engine.say] call at all
    before the alarm stage.  And in an episode in which nothing raises, the
    second [engine.say] is made before the one call that waits for speech,
    [engine.runAndWait()]: no utterance has completed when the next is
    issued. *)
Lemma C7_no_utterance_when_init_raises :
  let E := MkThreadEnv (Some "no audio driver") (fun _ => None) None
             (fun i => inject_Z (Z.of_nat i)) in
  let r := speak_message_then_alarm E 1 VOICE_MESSAGE None 5 2 in
  let E' := MkThreadEnv None (fun _ => None) None
              (fun i => inject_Z (Z.of_nat i)) in
  let r' := speak_message_then_alarm E' 1 VOICE_MESSAGE None 5 2 in
  r = (Done tt,
       [TtsInit; WarnTts "no audio driver"; PlayWaveCalled None 5]) /\
  count_calls is_say (calls_of r) <> 2%nat /\
  r' = (Done tt,
        [TtsInit; TtsSay VOICE_MESSAGE; TtsSay VOICE_MESSAGE; TtsRunAndWait;
         PlayWaveCalled None 5]).
Proof.
  cbv zeta. split; [reflexivity |]. split; [| reflexivity].
  vm_compute. discriminate.
Qed.

(** C7, amended. An episode in which no speech call raises makes exactly
    [repeat] [engine.say] calls, one after the other, then one
    [engine.runAndWait()] call, and only when these have returned calls
    [play_wave], with the wave and the duration; no [engine.say]
    follows. *)
Theorem C7_says_then_alarm
    (E : ThreadEnv) (fuel : nat) (message : string)
    (wave : option WaveObject) (duration : Q) (repeat : nat)
    (Hok : speech_ok E repeat) :
  let p := play_wave (clock E) fuel wave duration in
  let r := speak_message_then_alarm E fuel message wave duration repeat in
  r = (outcome_of p,
       [TtsInit] ++ replicate repeat (TtsSay message) ++ [TtsRunAndWait]
       ++ calls_of p) /\
  (exists rest, calls_of p = PlayWaveCalled wave duration :: rest) /\
  count_calls is_say (calls_of p) = 0%nat /\
  count_calls is_say (calls_of r) = repeat.
Proof.
  intros p r. destruct Hok as (Hi & Hs & Hr).
  assert (Hsp : speech_stage E message repeat =
                (Done tt, [TtsInit] ++ replicate repeat (TtsSay message)
                          ++ [TtsRunAndWait])).
  { unfold speech_stage. rewrite Hi, Hr. cbn [call_may_raise].
    rewrite tbind_done.
    destruct (for_range_say E message repeat 0%nat) as (_ & _ & _ & Hall).
    cbn zeta in Hall. rewrite Hall by (intros i Hlt; apply Hs; lia).
    rewrite tbind_done. reflexivity. }
  assert (Hr0 : r = (outcome_of p,
       [TtsInit] ++ replicate repeat (TtsSay message) ++ [TtsRunAndWait]
       ++ calls_of p)).
  { subst r. unfold speak_message_then_alarm. rewrite Hsp. fold p.
    cbn [try_except]. rewrite tbind_done. rewrite <- !app_assoc. reflexivity. }
  destruct (play_wave_calls (clock E) fuel wave duration)
    as (rest & Hp & Hnsp & _). fold p in Hp.
  assert (Hp0 : count_calls is_say (calls_of p) = 0%nat).
  { rewrite Hp. unfold count_calls. cbn [List.filter is_say].
    assert (Hnil : List.filter is_say rest = []).
    { clear -Hnsp. induction rest as [| c rest IH]; [reflexivity |].
      cbn [forallb] in Hnsp. apply andb_prop in Hnsp as [Hc Hrest].
      cbn [List.filter]. destruct c; cbn in Hc; try discriminate;
        cbn [is_say]; auto. }
    rewrite Hnil. reflexivity. }
  split; [exact Hr0 |]. split; [eexists; exact Hp |]. split; [exact Hp0 |].
  rewrite Hr0. cbn [calls_of snd]. rewrite !count_calls_app, Hp0.
  rewrite count_says_replicate. cbn. lia.
Qed.

Lemma C7_says_then_alarm_witness :
  let E := MkThreadEnv None (fun _ => None) None
             (fun i => inject_Z (Z.of_nat i)) in
  let w := MkWave [0; 1; 0; -1]%Z 1 2 44100 in
  let p := play_wave (clock E) 10 (Some w) 5 in
  let r := speak_message_then_alarm E 10 VOICE_MESSAGE (Some w) 5 2 in
  r = (outcome_of p,
       [TtsInit] ++ replicate 2 (TtsSay VOICE_MESSAGE) ++ [TtsRunAndWait]
       ++ calls_of p) /\
  (exists rest, calls_of p = PlayWaveCalled (Some w) 5 :: rest) /\
  count_calls is_say (calls_of p) = 0%nat /\
  count_calls is_say (calls_of r) = 2%nat.
Proof.
  cbv zeta.
  apply (C7_says_then_alarm
           (MkThreadEnv None (fun _ => None) None (fun i => inject_Z (Z.of_nat i)))
           10 VOICE_MESSAGE (Some (MkWave [0; 1; 0; -1]%Z 1 2 44100)) 5 2).
  split; [reflexivity | split; [intros i _; reflexivity | reflexivity]].
Defined.

(** ** The alarm loop *)

Lemma Qle_bool_false (x y : Q) : (y < x)%Q -> Qle_bool x y = false.
Proof.
  intros H. destruct (Qle_bool x y) eqn:E; [| reflexivity].
  apply Qle_bool_iff in E. lra.
Qed.

Lemma Qle_bool_true (x y : Q) : (x <= y)%Q -> Qle_bool x y = true.
Proof. apply Qle_bool_iff. Qed.

Lemma truthy_nonzero (t : Q) : ~ (t == 0)%Q -> truthy (Some t) = true.
Proof.
  intros H. unfold truthy. destruct (Qeq_bool t 0) eqn:E; [| reflexivity].
  apply Qeq_bool_iff in E. contradiction.
Qed.

Lemma play_loop_S (clk : nat -> Q) (fuel : nat) (w : WaveObject) (t : Q)
    (i : nat) :
  play_loop clk (S fuel) w (Some t) i =
  (if negb (truthy (Some t)) then Done tt
   else if Qle_bool t (clk i) then Done tt
   else outcome_of (play_loop clk fuel w (Some t) (S i)),
   WavePlay w ::
   (if negb (truthy (Some t)) then []
    else if Qle_bool t (clk i) then []
    else Sleep 1 :: calls_of (play_loop clk fuel w (Some t) (S i)))).
Proof.
  cbn [play_loop]. unfold call. rewrite tbind_done.
  destruct (negb (truthy (Some t))); [reflexivity |].
  destruct (Qle_bool t (clk i)); [reflexivity |].
  rewrite tbind_done. reflexivity.
Qed.

(** [k] more rounds of the loop: the readings [i .. i+k-1] lie before
    [end_time], the reading [i+k] does not. *)
Lemma play_loop_rounds (clk : nat -> Q) (w : WaveObject) (t : Q)
    (Ht : truthy (Some t) = true) (k : nat) :
  forall (n i : nat),
    (forall j, (i <= j < i + k)%nat -> (clk j < t)%Q) ->
    (t <= clk (i + k)%nat)%Q ->
    play_loop clk (S (k + n)) w (Some t) i =
    (Done tt, concat (replicate k [WavePlay w; Sleep 1]) ++ [WavePlay w]).
Proof.
  induction k as [| k IH]; intros n i Hbefore Hreach.
  - rewrite play_loop_S, Ht. cbn [negb].
    rewrite Nat.add_0_r in Hreach. rewrite (Qle_bool_true _ _ Hreach).
    reflexivity.
  - rewrite play_loop_S, Ht. cbn [negb].
    rewrite (Qle_bool_false t (clk i)) by (apply Hbefore; lia).
    change (S k + n)%nat with (S (k + n)).
    rewrite (IH n (S i)).
    + reflexivity.
    + intros j Hj. apply Hbefore. lia.
    + replace (S i + k)%nat with (i + S k)%nat by lia. exact Hreach.
Qed.

Lemma count_plays_rounds (w : WaveObject) (k : nat) :
  count_calls is_wave_play
    (concat (replicate k [WavePlay w; Sleep 1]) ++ [WavePlay w]) = S k.
Proof.
  rewrite count_calls_app. unfold count_calls at 2. cbn [List.filter is_wave_play length].
  induction k as [| k IH]; [reflexivity |].
  cbn [replicate concat]. rewrite count_calls_app in *.
  unfold count_calls at 1. cbn [List.filter is_wave_play length]. lia.
Qed.

Lemma play_wave_rounds
    (clk : nat -> Q) (w : WaveObject) (repeat_for : Q) (k n : nat) :
  ((0 < repeat_for)%Q ->
   ~ (clk O + repeat_for == 0)%Q /\
   (forall j, (1 <= j <= k)%nat -> (clk j < clk O + repeat_for)%Q) /\
   (clk O + repeat_for <= clk (S k))%Q) ->
  ((repeat_for <= 0)%Q -> k = O) ->
  play_wave clk (S (k + n)) (Some w) repeat_for =
  (Done tt,
   PlayWaveCalled (Some w) repeat_for
   :: concat (replicate k [WavePlay w; Sleep 1]) ++ [WavePlay w]).
Proof.
  intros Htimed Honce.
  unfold play_wave, call. rewrite tbind_done.
  destruct (Qle_bool repeat_for 0) eqn:Hd; cbn [negb].
  - apply Qle_bool_iff in Hd. rewrite (Honce Hd). reflexivity.
  - assert (Hpos : (0 < repeat_for)%Q).
    { destruct (Qlt_le_dec 0 repeat_for) as [H | H]; [exact H |].
      apply Qle_bool_iff in H. congruence. }
    destruct (Htimed Hpos) as (H0 & Hbefore & Hreach).
    rewrite (play_loop_rounds clk w (clk O + repeat_for)).
    + reflexivity.
    + apply truthy_nonzero. exact H0.
    + intros j Hj. apply Hbefore. lia.
    + exact Hreach.
Qed.

(** The first reading, among the first [S N] taken in the loop, that
    reaches [t]. *)
Lemma first_reading_reaching (clk : nat -> Q) (t : Q) (N : nat) :
  (exists k, (k <= N)%nat /\
             (forall j, (1 <= j <= k)%nat -> (clk j < t)%Q) /\
             (t <= clk (S k))%Q) \/
  (forall j, (1 <= j <= S N)%nat -> (clk j < t)%Q).
Proof.
  induction N as [| N IH].
  - destruct (Qlt_le_dec (clk 1%nat) t) as [Hlt | Hle].
    + right. intros j Hj. replace j with 1%nat by lia. exact Hlt.
    + left. exists O. split; [lia |]. split; [intros j Hj; lia | exact Hle].
  - destruct IH as [(k & Hk & Hb & Hr) | Hall].
    + left. exists k. split; [lia |]. split; assumption.
    + destruct (Qlt_le_dec (clk (S (S N))) t) as [Hlt | Hle].
      * right. intros j Hj.
        destruct (Nat.eq_dec j (S (S N))) as [-> | Hne]; [exact Hlt |].
        apply Hall. lia.
      * left. exists (S N). split; [lia |]. split; [exact Hall | exact Hle].
Qed.

(** With a clock that does not run backwards and that each [time.sleep(1)]
    advances by a second at least, the loop returns: at most [N] sleeps
    for a duration of at most [N] seconds. *)
Lemma play_wave_returns (clk : nat -> Q) (w : WaveObject) (repeat_for : Q)
    (N : nat) :
  (0 <= clk O)%Q ->
  (clk O <= clk 1%nat)%Q ->
  (forall j, (1 <= j)%nat -> (clk j + 1 <= clk (S j))%Q) ->
  (repeat_for <= inject_Z (Z.of_nat N))%Q ->
  exists k, (k <= N)%nat /\
    forall n,
      play_wave clk (S (k + n)) (Some w) repeat_for =
      (Done tt,
       PlayWaveCalled (Some w) repeat_for
       :: concat (replicate k [WavePlay w; Sleep 1]) ++ [WavePlay w]).
Proof.
  intros H0 H1 Hstep HN.
  assert (Hgrow : forall j, (clk O + inject_Z (Z.of_nat j) <= clk (S j))%Q).
  { induction j as [| j IHj].
    - change (inject_Z (Z.of_nat 0)) with 0%Q. lra.
    - specialize (Hstep (S j) ltac:(lia)).
      rewrite Nat2Z.inj_succ. unfold Z.succ. rewrite inject_Z_plus.
      change (inject_Z 1) with 1%Q. lra. }
  destruct (Qlt_le_dec 0 repeat_for) as [Hpos | Hneg].
  - destruct (first_reading_reaching clk (clk O + repeat_for) N)
      as [(k & Hk & Hb & Hr) | Hall].
    + exists k. split; [exact Hk |]. intros n.
      apply play_wave_rounds; [intros _ | intros Hle; lra].
      split; [intros He; lra | auto].
    + exfalso. specialize (Hall (S N) ltac:(lia)). specialize (Hgrow N). lra.
  - exists O. split; [lia |]. intros n.
    apply play_wave_rounds; [intros Hpos; lra | reflexivity].
Qed.

(** C8. With a loaded wave, [play_wave] plays, and after each play reads
    the clock, sleeping one second and playing again as long as the reading
    lies before [end_time = start + repeat_for]: when the readings taken
    after the first [k] plays lie before [end_time] and the next one does
    not, it returns after exactly [k + 1] plays; when [repeat_for] is zero
    or negative it returns after exactly one play.  In both cases there is
    at least one play.  ([end_time] is taken not to be 0.0, which Python
    counts as false: a clock that reads a time since the epoch never gives
    it.) *)
Theorem C8_alarm_loops_until_elapsed
    (clk : nat -> Q) (w : WaveObject) (repeat_for : Q) (k n : nat)
    (Htimed : (0 < repeat_for)%Q ->
              ~ (clk O + repeat_for == 0)%Q /\
              (forall j, (1 <= j <= k)%nat -> (clk j < clk O + repeat_for)%Q) /\
              (clk O + repeat_for <= clk (S k))%Q)
    (Honce : (repeat_for <= 0)%Q -> k = O) :
  let r := play_wave clk (S (k + n)) (Some w) repeat_for in
  r = (Done tt,
       PlayWaveCalled (Some w) repeat_for
       :: concat (replicate k [WavePlay w; Sleep 1]) ++ [WavePlay w]) /\
  count_calls is_wave_play (calls_of r) = S k /\
  (1 <= count_calls is_wave_play (calls_of r))%nat.
Proof.
  intros r.
  assert (Hr : r = (Done tt,
       PlayWaveCalled (Some w) repeat_for
       :: concat (replicate k [WavePlay w; Sleep 1]) ++ [WavePlay w]))
    by (apply play_wave_rounds; assumption).
  split; [exact Hr |].
  rewrite Hr. cbn [calls_of snd].
  change (PlayWaveCalled (Some w) repeat_for :: ?l)
    with ([PlayWaveCalled (Some w) repeat_for] ++ l).
  rewrite count_calls_app, count_plays_rounds. cbn. lia.
Qed.

Lemma C8_alarm_loops_until_elapsed_witness :
  let clk := fun i : nat => inject_Z (Z.of_nat i) in
  let w := MkWave [0; 1; 0; -1]%Z 1 2 44100 in
  let r := play_wave clk 5 (Some w) 3 in
  r = (Done tt,
       [PlayWaveCalled (Some w) 3; WavePlay w; Sleep 1; WavePlay w; Sleep 1;
        WavePlay w]) /\
  count_calls is_wave_play (calls_of r) = 3%nat /\
  (1 <= count_calls is_wave_play (calls_of r))%nat.
Proof.
  cbv zeta.
  apply (C8_alarm_loops_until_elapsed
           (fun i : nat => inject_Z (Z.of_nat i))
           (MkWave [0; 1; 0; -1]%Z 1 2 44100) 3 2 2).
  - intros _. split; [| split].
    + intros H. vm_compute in H. discriminate H.
    + intros j Hj. assert (Hc : j = 1%nat \/ j = 2%nat) by lia.
      destruct Hc as [-> | ->]; vm_compute; reflexivity.
    + vm_compute. discriminate.
  - intros H. vm_compute in H. exfalso. apply H. reflexivity.
Defined.

(** ** The missing sound *)

Lemma handle_sample_threads (wave : option WaveObject) (f : Frame) (st : Store) :
  threads_get wave (trace_of (handle_sample wave f st)).
Proof.
  unfold threads_get. rewrite handle_sample_eq. cbn zeta.
  destruct (0 <? face_count f)%nat.
  - destruct (state_differs "human" (prev_state st)); [| constructor].
    rewrite on_change_human. cbn zeta.
    destruct (Qle_bool _ _); cbn [trace_of snd]; repeat constructor.
  - destruct (state_differs "no_face" (prev_state st)); [| constructor].
    rewrite on_change_no_face. cbn [trace_of snd]. repeat constructor.
Qed.

Lemma main_loop_threads (wave : option WaveObject) (frames : list Frame) :
  forall st, threads_get wave (trace_of (main_loop wave frames st)).
Proof.
  unfold threads_get.
  induction frames as [| f rest IH]; intros st; cbn [main_loop].
  - constructor.
  - destruct (negb (cap_ret f)); [repeat constructor |].
    rewrite trace_of_bind. apply Forall_app. split.
    + apply handle_sample_threads.
    + destruct (quit_pressed f); [repeat constructor | apply IH].
Qed.

Lemma load_wave_eq (decoded : option WaveObject) (path : string) (st : Store) :
  load_wave decoded path st =
  (if path_exists (files st) path then decoded else None,
   st,
   if path_exists (files st) path
   then match decoded with
        | Some _ => []
        | None => [EPrint (WarnSoundNotLoaded path)]
        end
   else [EPrint (WarnSoundNotFound path)]).
Proof.
  unfold load_wave, bind, get_files.
  destruct (path_exists (files st) path); cbn [negb].
  - destruct decoded; reflexivity.
  - reflexivity.
Qed.

Lemma ensure_report_exists_eq (path : string) (st : Store) :
  ensure_report_exists path st =
  if path_exists (files st) path then (tt, st, [])
  else (tt,
        MkStore (<[path := [header]]> (files st)) (prev_state st)
          (last_alert_time st),
        [EWriteRow path header]).
Proof.
  unfold ensure_report_exists, bind, get_files.
  destruct (path_exists (files st) path); reflexivity.
Qed.

Lemma sound_exists_after_ensure (st : Store) :
  path_exists (files (store_of (ensure_report_exists REPORT_CSV st))) ALERT_SOUND
  = path_exists (files st) ALERT_SOUND.
Proof.
  rewrite ensure_report_exists_eq.
  destruct (path_exists (files st) REPORT_CSV); [reflexivity |].
  cbn [store_of fst snd files]. unfold path_exists.
  rewrite lookup_insert_ne by discriminate. reflexivity.
Qed.

(** The wave [main] hands to its alert threads. *)
Lemma main_threads (E : Env) (frames : list Frame) (st : Store) :
  threads_get
    (if path_exists (files st) ALERT_SOUND then decoded_sound E else None)
    (trace_of (main E frames st)).
Proof.
  rewrite <- sound_exists_after_ensure.
  unfold main. rewrite trace_of_bind. apply Forall_app. split.
  - rewrite ensure_report_exists_eq.
    destruct (path_exists (files st) REPORT_CSV); repeat constructor.
  - set (st1 := store_of (ensure_report_exists REPORT_CSV st)).
    destruct (cascade_empty E); [repeat constructor |].
    rewrite trace_of_bind. apply Forall_app. split.
    + rewrite load_wave_eq. cbn [trace_of snd].
      destruct (path_exists (files st1) ALERT_SOUND);
        [destruct (decoded_sound E) |]; repeat constructor.
    + rewrite load_wave_eq. cbn [fst snd store_of].
      destruct (negb (camera_opened E)); [repeat constructor |].
      rewrite trace_of_bind. apply Forall_app. split; [constructor |].
      rewrite trace_of_bind. apply Forall_app. split; [repeat constructor |].
      rewrite trace_of_bind. apply Forall_app. split.
      * apply main_loop_threads.
      * destruct (fst (fst (main_loop _ _ _))); repeat constructor.
Qed.

(** C10. [load_wave] gives the decoded sound only when the file exists and
    decodes, and [None] (with one warning) otherwise, leaving the store as
    it was; the threads [main] starts are handed that value; and with
    [None] for the wave [play_wave] returns at once, whatever the duration
    and the fuel, so that the episode ends normally without a single
    [wave.play()]. *)
Theorem C10_missing_sound_disables_alarm
    (decoded : option WaveObject) (path : string) (st : Store)
    (E : Env) (frames : list Frame)
    (TE : ThreadEnv) (fuel : nat) (message : string) (duration : Q)
    (repeat : nat) :
  load_wave decoded path st =
    (if path_exists (files st) path then decoded else None,
     st,
     if path_exists (files st) path
     then match decoded with
          | Some _ => []
          | None => [EPrint (WarnSoundNotLoaded path)]
          end
     else [EPrint (WarnSoundNotFound path)]) /\
  threads_get
    (if path_exists (files st) ALERT_SOUND then decoded_sound E else None)
    (trace_of (main E frames st)) /\
  play_wave (clock TE) fuel None duration =
    (Done tt, [PlayWaveCalled None duration]) /\
  outcome_of (speak_message_then_alarm TE fuel message None duration repeat)
    = Done tt /\
  count_calls is_wave_play
    (calls_of (speak_message_then_alarm TE fuel message None duration repeat))
    = 0%nat.
Proof.
  split; [apply load_wave_eq |]. split; [apply main_threads |].
  split; [reflexivity |].
  unfold speak_message_then_alarm. rewrite speech_try, tbind_done.
  cbn [outcome_of calls_of fst snd]. split; [reflexivity |].
  rewrite !count_calls_app.
  destruct (speech_stage_cases TE message repeat) as (_ & Hsp & _).
  assert (Hzero : forall cs, forallb is_speech_call cs = true ->
                             count_calls is_wave_play cs = 0%nat).
  { intros cs. unfold count_calls.
    induction cs as [| c cs IH]; [reflexivity |].
    cbn [forallb]. intros H. apply andb_prop in H as [Hc Hcs].
    destruct c; cbn in Hc; try discriminate; cbn; auto. }
  rewrite (Hzero _ Hsp).
  destruct (outcome_of (speech_stage TE message repeat)); reflexivity.
Qed.

(** ** The report file and its header *)

Lemma human_row_not_header (f : Frame) (n : nat) :
  bool_decide (human_row f n = header) = false.
Proof. apply bool_decide_eq_false. unfold human_row, header. congruence. Qed.

Lemma handle_sample_no_header (wave : option WaveObject) (f : Frame) (st : Store) :
  List.filter is_header_write (trace_of (handle_sample wave f st)) = [].
Proof.
  rewrite handle_sample_eq. cbn zeta.
  destruct (0 <? face_count f)%nat.
  - destruct (state_differs "human" (prev_state st)); [| reflexivity].
    rewrite on_change_human. cbn zeta.
    destruct (Qle_bool _ _); cbn [trace_of snd List.filter is_header_write];
      rewrite human_row_not_header; reflexivity.
  - destruct (state_differs "no_face" (prev_state st)); reflexivity.
Qed.

Lemma main_loop_no_header (wave : option WaveObject) (frames : list Frame) :
  forall st,
    List.filter is_header_write (trace_of (main_loop wave frames st)) = [].
Proof.
  induction frames as [| f rest IH]; intros st; cbn [main_loop].
  - reflexivity.
  - destruct (negb (cap_ret f)); [reflexivity |].
    rewrite trace_of_bind, List.filter_app, handle_sample_no_header.
    destruct (quit_pressed f); [reflexivity | apply IH].
Qed.

Lemma main_loop_rows (wave : option WaveObject) (frames : list Frame) :
  forall st, exists rows,
    report (store_of (main_loop wave frames st)) = report st ++ rows /\
    Forall is_data_row rows.
Proof.
  induction frames as [| f rest IH]; intros st; cbn [main_loop].
  - exists []. rewrite app_nil_r. split; [reflexivity | constructor].
  - destruct (negb (cap_ret f)).
    { exists []. rewrite app_nil_r. split; [reflexivity | constructor]. }
    rewrite store_of_bind.
    set (st1 := store_of (handle_sample wave f st)).
    assert (H1 : exists rows1, report st1 = report st ++ rows1 /\
                               Forall is_data_row rows1).
    { subst st1. rewrite handle_sample_report.
      destruct (enters_human f st).
      - eexists. split; [reflexivity |]. repeat constructor.
        unfold is_data_row, human_row. eauto.
      - exists []. rewrite app_nil_r. split; [reflexivity | constructor]. }
    destruct H1 as (rows1 & Hr1 & Hd1).
    destruct (quit_pressed f).
    + exists rows1. split; [exact Hr1 | exact Hd1].
    + destruct (IH st1) as (rows2 & Hr2 & Hd2).
      exists (rows1 ++ rows2). rewrite Hr2, Hr1, app_assoc.
      split; [reflexivity |]. apply Forall_app. split; assumption.
Qed.

Lemma report_after_ensure (st : Store) :
  report (store_of (ensure_report_exists REPORT_CSV st)) =
  default [header] (files st !! REPORT_CSV).
Proof.
  rewrite ensure_report_exists_eq. unfold path_exists, report.
  destruct (files st !! REPORT_CSV) as [rows |] eqn:Hl.
  - rewrite bool_decide_eq_true_2 by eauto. cbn [store_of fst snd].
    rewrite Hl. reflexivity.
  - rewrite bool_decide_eq_false_2 by (intros [x Hx]; discriminate).
    cbn [store_of fst snd files]. rewrite lookup_insert_eq. reflexivity.
Qed.

(** [ensure_report_exists] creates an absent file with the header as its
    only row and leaves an existing file (and everything else) as it is;
    afterwards the file exists and a second call does nothing.  [main]
    calls it first and nowhere else: the report after a run is what the
    file held at the start (the header alone when it was absent) followed
    by data rows only, and the header is written once when the file was
    absent and never otherwise. *)
Lemma header_written_once
    (path : string) (st : Store) (E : Env) (frames : list Frame) :
  let r := ensure_report_exists path st in
  r = (if path_exists (files st) path then (tt, st, [])
       else (tt,
             MkStore (<[path := [header]]> (files st)) (prev_state st)
               (last_alert_time st),
             [EWriteRow path header])) /\
  files (store_of r) !! path = Some (default [header] (files st !! path)) /\
  ensure_report_exists path (store_of r) = (tt, store_of r, []) /\
  (exists rows,
     report (store_of (main E frames st)) =
       default [header] (files st !! REPORT_CSV) ++ rows /\
     Forall is_data_row rows) /\
  List.filter is_header_write (trace_of (main E frames st)) =
    if path_exists (files st) REPORT_CSV then []
    else [EWriteRow REPORT_CSV header].
Proof.
  intros r.
  assert (Hr : r = (if path_exists (files st) path then (tt, st, [])
       else (tt,
             MkStore (<[path := [header]]> (files st)) (prev_state st)
               (last_alert_time st),
             [EWriteRow path header]))) by apply ensure_report_exists_eq.
  assert (Hl : files (store_of r) !! path
               = Some (default [header] (files st !! path))).
  { rewrite Hr. unfold path_exists.
    destruct (files st !! path) as [rows |] eqn:Hp.
    - rewrite bool_decide_eq_true_2 by eauto. exact Hp.
    - rewrite bool_decide_eq_false_2 by (intros [x Hx]; discriminate).
      cbn [store_of fst snd files]. apply lookup_insert_eq. }
  split; [exact Hr |]. split; [exact Hl |]. split; [| split].
  - rewrite ensure_report_exists_eq. unfold path_exists.
    rewrite Hl. rewrite bool_decide_eq_true_2 by eauto. reflexivity.
  - unfold main. rewrite store_of_bind.
    set (st1 := store_of (ensure_report_exists REPORT_CSV st)).
    pose proof (report_after_ensure st) as Hst1. fold st1 in Hst1.
    rewrite <- Hst1.
    destruct (cascade_empty E).
    { exists []. rewrite app_nil_r. split; [reflexivity | constructor]. }
    rewrite store_of_bind, load_wave_eq. cbn [fst snd store_of].
    destruct (negb (camera_opened E)).
    { exists []. rewrite app_nil_r. split; [reflexivity | constructor]. }
    fold (@store_of unit).
    set (wave := if path_exists (files st1) ALERT_SOUND then _ else _).
    change (snd (fst ?x)) with (store_of x).
    rewrite !store_of_bind, store_of_finally.
    apply (main_loop_rows wave frames (MkStore (files st1) None 0)).
  - unfold main. rewrite trace_of_bind, List.filter_app.
    rewrite ensure_report_exists_eq.
    set (st1 := store_of (if path_exists (files st) REPORT_CSV then _ else _)).
    assert (Hrest : List.filter is_header_write
              (trace_of
                 ((if cascade_empty E then print ErrCascade
                   else alert_wave <- load_wave (decoded_sound E) ALERT_SOUND ;;
                        if negb (camera_opened E)
                        then print (ErrCamera CAMERA_INDEX)
                        else init_locals >> print MsgStarted >>
                             left <- main_loop alert_wave frames ;;
                             if left then emit ERelease else ret tt)
                    st1)) = []).
    { destruct (cascade_empty E); [reflexivity |].
      rewrite trace_of_bind, List.filter_app, load_wave_eq.
      cbn [trace_of fst snd store_of].
      assert (Hw : List.filter is_header_write
                (if path_exists (files st1) ALERT_SOUND
                 then match decoded_sound E with
                      | Some _ => []
                      | None => [EPrint (WarnSoundNotLoaded ALERT_SOUND)]
                      end
                 else [EPrint (WarnSoundNotFound ALERT_SOUND)]) = []).
      { destruct (path_exists (files st1) ALERT_SOUND);
          [destruct (decoded_sound E) |]; reflexivity. }
      rewrite Hw. cbn [app].
      destruct (negb (camera_opened E)); [reflexivity |].
      change (snd ?x) with (trace_of x).
      rewrite !trace_of_bind, !List.filter_app.
      rewrite main_loop_no_header, no_header_in_finally. reflexivity. }
    cbn [fst].
    destruct (path_exists (files st) REPORT_CSV);
      cbn [trace_of snd List.filter is_header_write] in *.
    + change (snd ?x) with (trace_of x). rewrite Hrest. reflexivity.
    + rewrite bool_decide_eq_true_2 by reflexivity.
      change (snd ?x) with (trace_of x). rewrite Hrest. reflexivity.
Qed.

(** ** Worked runs *)

(** Face counts 0,0,2,2,0 and then the quit key: the report ends up with
    the header and one data row. *)
Example run_counts_0_0_2_2_0 :
  let frames := [sample_frame 0 1000 (-1); sample_frame 0 1001 (-1);
                 sample_frame 2 1002 (-1); sample_frame 2 1003 (-1);
                 sample_frame 0 1004 113] in
  let r := main (MkEnv false None true) frames (MkStore ∅ None 0) in
  report (store_of r) =
    [header; [CStr "ts"; CStr "human"; CInt 2; CStr "Faces detected"]] /\
  prev_state (store_of r) = Some "no_face" /\
  last_alert_time (store_of r) = 1002%Q.
Proof. vm_compute. repeat split. Qed.

(** Face counts 1,0,1,0,1 one second apart: three rows, one thread. *)
Example run_counts_1_0_1_0_1 :
  let frames := [sample_frame 1 1000 (-1); sample_frame 0 1001 (-1);
                 sample_frame 1 1002 (-1); sample_frame 0 1003 (-1);
                 sample_frame 1 1004 113] in
  let r := main (MkEnv false None true) frames (MkStore ∅ None 0) in
  length (report (store_of r)) = 4%nat /\
  List.filter is_thread_start (trace_of r) =
    [EThreadStart VOICE_MESSAGE None HUMAN_ALERT_DURATION 2] /\
  episode_starts None frames (MkStore ∅ None 0) = [1000%Q].
Proof. vm_compute. repeat split. Qed.

(** A failed read ends the loop before the sample is looked at. *)
Example run_failed_read :
  let frames := [MkFrame false 3 1000 "ts" "ts" (-1); sample_frame 1 1001 (-1)] in
  trace_of (main (MkEnv false None true) frames (MkStore ∅ None 0)) =
    [EWriteRow REPORT_CSV header; EPrint (WarnSoundNotFound ALERT_SOUND);
     EPrint MsgStarted; EPrint ErrCapture; ERelease].
Proof. vm_compute. reflexivity. Qed.

(** An utterance that raises: the remaining one is dropped, the alarm still
    plays. *)
Example episode_second_say_raises :
  let E := MkThreadEnv None
             (fun i => if (i =? 1)%nat then Some "engine busy" else None) None
             (fun i => inject_Z (Z.of_nat i)) in
  let w := MkWave [0; 1; 0; -1]%Z 1 2 44100 in
  speak_message_then_alarm E 3 "Warning!" (Some w) 0 3 =
    (Done tt,
     [TtsInit; TtsSay "Warning!"; TtsSay "Warning!"; WarnTts "engine busy";
      PlayWaveCalled (Some w) 0; WavePlay w]).
Proof. vm_compute. reflexivity. Qed.

(** [end_time = 0.0] is falsy: a clock that reads 30 s before the epoch
    ends a 30 s alarm after its first play. *)
Example play_wave_end_time_zero :
  let w := MkWave [0; 1; 0; -1]%Z 1 2 44100 in
  play_wave (fun i => (-30 + inject_Z (Z.of_nat i))%Q) 40 (Some w) 30 =
    (Done tt, [PlayWaveCalled (Some w) 30; WavePlay w]).
Proof. vm_compute. reflexivity. Qed.

(** A frozen clock: the loop does not return within the fuel. *)
Example play_wave_frozen_clock :
  let w := MkWave [0; 1; 0; -1]%Z 1 2 44100 in
  outcome_of (play_wave (fun _ => 1000%Q) 3 (Some w) 30) = OutOfFuel.
Proof. vm_compute. reflexivity. Qed.

(** * Further properties of the code *)

(** ** The held state and the log over a run *)

Lemma state_differs_false (s : string) (p : option string) :
  state_differs s p = false -> p = Some s.
Proof.
  destruct p as [q |]; cbn; [| discriminate].
  intros H. apply negb_false_iff, String.eqb_eq in H. congruence.
Qed.

Lemma state_differs_same (s : string) : state_differs s (Some s) = false.
Proof. cbn. rewrite String.eqb_refl. reflexivity. Qed.

Lemma handle_sample_prev_class (wave : option WaveObject) (f : Frame)
    (st : Store) :
  prev_state (store_of (handle_sample wave f st)) = Some (class_of f).
Proof.
  rewrite handle_sample_eq. cbn zeta. unfold class_of, has_face.
  destruct (0 <? face_count f)%nat.
  - destruct (state_differs "human" (prev_state st)) eqn:Hd.
    + rewrite on_change_human. cbn zeta. destruct (Qle_bool _ _); reflexivity.
    + apply state_differs_false in Hd. exact Hd.
  - destruct (state_differs "no_face" (prev_state st)) eqn:Hd.
    + reflexivity.
    + apply state_differs_false in Hd. exact Hd.
Qed.

Lemma held_human_after (wave : option WaveObject) (f : Frame) (st : Store) :
  held_human (store_of (handle_sample wave f st)) = has_face f.
Proof.
  unfold held_human. rewrite handle_sample_prev_class. unfold class_of.
  destruct (has_face f); reflexivity.
Qed.

(** X1. Whatever was held before, after the loop [prev_state] is the state
    of the last frame whose sample was handled; it is left as it was only
    when no sample was handled. *)
Theorem X1_prev_state_of_last_frame
    (wave : option WaveObject) (frames : list Frame) (st : Store) :
  prev_state (store_of (main_loop wave frames st)) =
  match last (handled frames) with
  | Some f => Some (class_of f)
  | None => prev_state st
  end.
Proof.
  revert st. induction frames as [| f rest IH]; intros st; cbn [main_loop handled].
  - reflexivity.
  - destruct (negb (cap_ret f)); [reflexivity |].
    rewrite store_of_bind.
    destruct (quit_pressed f).
    + rewrite store_of_break. cbn [last]. apply handle_sample_prev_class.
    + rewrite IH, last_cons.
      destruct (last (handled rest)); [reflexivity |].
      apply handle_sample_prev_class.
Qed.

(** X2. A sample of the same class as the sample handled just before it
    does nothing: no event, and the store stays as it is. *)
Theorem X2_same_class_is_silent
    (wave : option WaveObject) (f1 f2 : Frame) (st : Store)
    (Hsame : has_face f2 = has_face f1) :
  handle_sample wave f2 (store_of (handle_sample wave f1 st)) =
  (tt, store_of (handle_sample wave f1 st), []).
Proof.
  rewrite (handle_sample_eq wave f2). cbn zeta.
  rewrite handle_sample_prev_class. unfold class_of. rewrite <- Hsame.
  unfold has_face. rewrite state_differs_same. reflexivity.
Qed.

Lemma X2_same_class_is_silent_witness :
  let f1 := sample_frame 1 1000 (-1) in
  let f2 := sample_frame 3 1001 (-1) in
  let st := MkStore ∅ None 0 in
  handle_sample None f2 (store_of (handle_sample None f1 st)) =
  (tt, store_of (handle_sample None f1 st), []).
Proof.
  cbv zeta.
  apply (X2_same_class_is_silent None (sample_frame 1 1000 (-1))
           (sample_frame 3 1001 (-1)) (MkStore ∅ None 0)).
  reflexivity.
Defined.

Lemma enters_human_eq (f : Frame) (st : Store) :
  enters_human f st = has_face f && negb (held_human st).
Proof.
  unfold enters_human, held_human, has_face. rewrite negb_involutive.
  reflexivity.
Qed.

Lemma main_loop_report_rows (wave : option WaveObject) (frames : list Frame) :
  forall st,
    report (store_of (main_loop wave frames st)) =
    report st ++
    map (fun f => human_row f (face_count f))
        (entering (held_human st) (handled frames)).
Proof.
  induction frames as [| f rest IH]; intros st; cbn [main_loop handled].
  - cbn. rewrite app_nil_r. reflexivity.
  - destruct (negb (cap_ret f)); [cbn; rewrite app_nil_r; reflexivity |].
    rewrite store_of_bind.
    destruct (quit_pressed f).
    + rewrite store_of_break, handle_sample_report, enters_human_eq.
      cbn [entering]. rewrite app_nil_r.
      destruct (has_face f && negb (held_human st));
        [reflexivity | cbn; rewrite app_nil_r; reflexivity].
    + rewrite IH, handle_sample_report, held_human_after, enters_human_eq.
      cbn [entering]. rewrite map_app.
      destruct (has_face f && negb (held_human st)); cbn [map app].
      * rewrite <- app_assoc. reflexivity.
      * reflexivity.
Qed.

(** X3. The report after a run of [main] is what the file held at the start
    (the header alone when it was absent), followed, when the cascade is
    loaded and the camera opens, by one row for each handled frame that
    shows a face right after one that showed none (or as the first frame),
    in order, with that frame's timestamp and face count; and by
    nothing otherwise. *)
Theorem X3_report_after_main
    (E : Env) (frames : list Frame) (st : Store) :
  report (store_of (main E frames st)) =
  default [header] (files st !! REPORT_CSV) ++
  (if cascade_empty E || negb (camera_opened E) then []
   else map (fun f => human_row f (face_count f))
            (entering false (handled frames))).
Proof.
  unfold main. rewrite store_of_bind.
  set (st1 := store_of (ensure_report_exists REPORT_CSV st)).
  pose proof (report_after_ensure st) as Hst1. fold st1 in Hst1.
  rewrite <- Hst1.
  destruct (cascade_empty E); cbn [orb].
  { rewrite app_nil_r. reflexivity. }
  rewrite store_of_bind, load_wave_eq. cbn [fst snd store_of].
  destruct (negb (camera_opened E)).
  { rewrite app_nil_r. reflexivity. }
  fold (@store_of unit).
  change (snd (fst ?x)) with (store_of x).
  rewrite !store_of_bind, store_of_finally.
  apply (main_loop_report_rows _ frames (MkStore (files st1) None 0)).
Qed.

(** ** The cooldown clock over a run *)

Lemma main_loop_last_alert (wave : option WaveObject) (frames : list Frame) :
  forall st,
    last_alert_time (store_of (main_loop wave frames st)) =
    default (last_alert_time st) (last (episode_starts wave (handled frames) st)).
Proof.
  induction frames as [| f rest IH]; intros st; cbn [main_loop handled].
  - reflexivity.
  - destruct (negb (cap_ret f)); [reflexivity |].
    rewrite store_of_bind.
    destruct (quit_pressed f); cbn [episode_starts].
    + rewrite store_of_break, handle_sample_last_alert, app_nil_r.
      destruct (existsb _ _); reflexivity.
    + rewrite IH, handle_sample_last_alert.
      destruct (existsb is_thread_start (trace_of (handle_sample wave f st)));
        cbn [app]; [| reflexivity].
      rewrite last_cons.
      destruct (last (episode_starts wave (handled rest) _)); reflexivity.
Qed.

(** X4. After the loop [last_alert_time] is the clock reading of the last
    sample at which a thread was started (its old value when none was),
    and it has not decreased, even when the clock readings of the frames
    go backwards. *)
Theorem X4_last_alert_time_never_decreases
    (wave : option WaveObject) (frames : list Frame) (st : Store) :
  last_alert_time (store_of (main_loop wave frames st)) =
    default (last_alert_time st)
            (last (episode_starts wave (handled frames) st)) /\
  (last_alert_time st <= last_alert_time (store_of (main_loop wave frames st)))%Q.
Proof.
  split; [apply main_loop_last_alert |].
  rewrite main_loop_last_alert.
  destruct (last (episode_starts wave (handled frames) st)) as [t |] eqn:Hl;
    cbn [default from_option].
  - apply last_Some in Hl as [l' Hl'].
    pose proof (episode_starts_after wave (handled frames) st) as Ha.
    rewrite Hl' in Ha. apply Forall_app in Ha as [_ Ha].
    apply Forall_inv in Ha. cbv beta in Ha. pose proof cooldown_nonneg.
    unfold id. lra.
  - lra.
Qed.

(** ** What the loop leaves alone *)

Lemma handle_sample_other_files (wave : option WaveObject) (f : Frame)
    (st : Store) (path : string) :
  path <> REPORT_CSV ->
  files (store_of (handle_sample wave f st)) !! path = files st !! path.
Proof.
  intros Hne. rewrite handle_sample_files.
  destruct (enters_human f st); [| reflexivity].
  apply lookup_insert_ne. congruence.
Qed.

Lemma main_loop_other_files (wave : option WaveObject) (frames : list Frame)
    (path : string) :
  path <> REPORT_CSV ->
  forall st, files (store_of (main_loop wave frames st)) !! path
             = files st !! path.
Proof.
  intros Hne. induction frames as [| f rest IH]; intros st; cbn [main_loop].
  - reflexivity.
  - destruct (negb (cap_ret f)); [reflexivity |].
    rewrite store_of_bind.
    destruct (quit_pressed f).
    + rewrite store_of_break. apply handle_sample_other_files, Hne.
    + rewrite IH. apply handle_sample_other_files, Hne.
Qed.

(** X5. A run of [main] changes no file but the report: every other path
    holds afterwards what it held before (the sound file is only read). *)
Theorem X5_only_the_report_is_written
    (E : Env) (frames : list Frame) (st : Store) (path : string)
    (Hne : path <> REPORT_CSV) :
  files (store_of (main E frames st)) !! path = files st !! path.
Proof.
  assert (H1 : files (store_of (ensure_report_exists REPORT_CSV st)) !! path
               = files st !! path).
  { rewrite ensure_report_exists_eq.
    destruct (path_exists (files st) REPORT_CSV); [reflexivity |].
    cbn [store_of fst snd files]. apply lookup_insert_ne. congruence. }
  unfold main. rewrite store_of_bind.
  set (st1 := store_of (ensure_report_exists REPORT_CSV st)) in *.
  destruct (cascade_empty E); [exact H1 |].
  rewrite store_of_bind, load_wave_eq. cbn [fst snd store_of].
  destruct (negb (camera_opened E)); [exact H1 |].
  fold (@store_of unit).
  change (snd (fst ?x)) with (store_of x).
  rewrite !store_of_bind, store_of_finally.
  rewrite (main_loop_other_files _ frames path Hne). exact H1.
Qed.

Lemma X5_only_the_report_is_written_witness :
  let frames := [sample_frame 1 1000 (-1); sample_frame 0 1001 113] in
  let st := MkStore {[ ALERT_SOUND := [[CStr "RIFF"]] ]} None 0 in
  files (store_of (main (MkEnv false None true) frames st)) !! ALERT_SOUND
  = files st !! ALERT_SOUND.
Proof.
  cbv zeta.
  apply (X5_only_the_report_is_written (MkEnv false None true)
           [sample_frame 1 1000 (-1); sample_frame 0 1001 113]
           (MkStore {[ ALERT_SOUND := [[CStr "RIFF"]] ]} None 0) ALERT_SOUND).
  discriminate.
Defined.

(** ** Alerts and log rows *)

Lemma main_loop_start_events (wave : option WaveObject) (frames : list Frame) :
  forall st,
    List.filter is_thread_start (trace_of (main_loop wave frames st)) =
    replicate (length (episode_starts wave (handled frames) st))
              (EThreadStart VOICE_MESSAGE wave HUMAN_ALERT_DURATION 2).
Proof.
  induction frames as [| f rest IH]; intros st; cbn [main_loop handled].
  - reflexivity.
  - destruct (negb (cap_ret f)); [reflexivity |].
    rewrite trace_of_bind, List.filter_app, handle_sample_start_events.
    destruct (quit_pressed f); cbn [episode_starts]; rewrite length_app.
    + destruct (existsb _ _); reflexivity.
    + rewrite IH. destruct (existsb _ _); reflexivity.
Qed.

Lemma main_loop_starts_le_rows (wave : option WaveObject) (frames : list Frame) :
  forall st,
    (length (report st) + length (episode_starts wave (handled frames) st)
     <= length (report (store_of (main_loop wave frames st))))%nat.
Proof.
  induction frames as [| f rest IH]; intros st; cbn [main_loop handled].
  - change (store_of (ret false st)) with st. cbn [episode_starts length]. lia.
  - destruct (negb (cap_ret f));
      [rewrite store_of_break; cbn [episode_starts length]; lia |].
    rewrite store_of_bind.
    assert (Hstep :
      (length (report st)
       + (if existsb is_thread_start (trace_of (handle_sample wave f st))
          then 1 else 0)
       <= length (report (store_of (handle_sample wave f st))))%nat).
    { rewrite handle_sample_report, handle_sample_starts.
      unfold enters_human.
      destruct ((0 <? face_count f)%nat && state_differs "human" (prev_state st));
        cbn [andb]; [rewrite length_app; cbn; destruct (Qle_bool _ _); lia | lia]. }
    destruct (quit_pressed f); cbn [episode_starts]; rewrite length_app.
    + rewrite store_of_break. cbn [length].
      destruct (existsb _ _); cbn [length] in *; lia.
    + specialize (IH (store_of (handle_sample wave f st))).
      destruct (existsb _ _); cbn [length] in *; lia.
Qed.

(** X6. Every thread the loop starts gets the same arguments (the voice
    message, the loaded wave, 30 seconds, 2 repetitions), and the loop
    starts no more threads than it appends rows to the report: an alert
    is only raised in a pass that has logged the detection. *)
Theorem X6_alerts_are_logged
    (wave : option WaveObject) (frames : list Frame) (st : Store) :
  let r := main_loop wave frames st in
  let n := length (List.filter is_thread_start (trace_of r)) in
  List.filter is_thread_start (trace_of r) =
    replicate n (EThreadStart VOICE_MESSAGE wave 30 2) /\
  (length (report st) + n <= length (report (store_of r)))%nat.
Proof.
  cbv zeta. rewrite main_loop_start_events, length_replicate.
  split; [reflexivity | apply main_loop_starts_le_rows].
Qed.

(** ** Leaving [main] early and leaving the loop *)

(** X7. When the cascade fails to load or the camera does not open, [main]
    returns before it reads a frame: whatever the frames, it has only made
    sure the report exists (and, for the camera, tried to load the sound);
    it starts no thread, appends no row and does not release the camera. *)
Theorem X7_startup_failure
    (E : Env) (frames : list Frame) (st : Store)
    (Hfail : cascade_empty E = true \/ camera_opened E = false) :
  let r0 := ensure_report_exists REPORT_CSV st in
  main E frames st =
    (tt, store_of r0,
     trace_of r0 ++
     if cascade_empty E then [EPrint ErrCascade]
     else trace_of (load_wave (decoded_sound E) ALERT_SOUND (store_of r0))
          ++ [EPrint (ErrCamera CAMERA_INDEX)]) /\
  existsb is_thread_start (trace_of (main E frames st)) = false /\
  existsb is_release (trace_of (main E frames st)) = false /\
  report (store_of (main E frames st)) =
    default [header] (files st !! REPORT_CSV).
Proof.
  cbv zeta.
  assert (Hmain : main E frames st =
    (tt, store_of (ensure_report_exists REPORT_CSV st),
     trace_of (ensure_report_exists REPORT_CSV st) ++
     if cascade_empty E then [EPrint ErrCascade]
     else trace_of (load_wave (decoded_sound E) ALERT_SOUND
                      (store_of (ensure_report_exists REPORT_CSV st)))
          ++ [EPrint (ErrCamera CAMERA_INDEX)])).
  { unfold main at 1. unfold bind at 1.
    destruct (ensure_report_exists REPORT_CSV st) as [[[] st1] o1].
    cbn [store_of trace_of fst snd].
    destruct (cascade_empty E) eqn:Hc; [reflexivity |].
    destruct Hfail as [Hf | Hf]; [discriminate |].
    unfold bind. rewrite load_wave_eq, Hf. reflexivity. }
  split; [exact Hmain |].
  rewrite Hmain. cbn [trace_of store_of fst snd].
  split; [| split; [| apply report_after_ensure]].
  - rewrite ensure_report_exists_eq, load_wave_eq.
    destruct (path_exists (files st) REPORT_CSV), (cascade_empty E);
      cbn [trace_of store_of fst snd app existsb is_thread_start orb];
      try reflexivity;
      (destruct (path_exists _ ALERT_SOUND);
       [destruct (decoded_sound E) |]; reflexivity).
  - rewrite ensure_report_exists_eq, load_wave_eq.
    destruct (path_exists (files st) REPORT_CSV), (cascade_empty E);
      cbn [trace_of store_of fst snd app];
      try reflexivity;
      (destruct (path_exists _ ALERT_SOUND);
       [destruct (decoded_sound E) |]; reflexivity).
Qed.

Lemma X7_startup_failure_witness :
  let E := MkEnv false None false in
  let frames := [sample_frame 1 1000 113] in
  let st := MkStore ∅ None 0 in
  main E frames st =
    (tt, MkStore {[ REPORT_CSV := [header] ]} None 0,
     [EWriteRow REPORT_CSV header; EPrint (WarnSoundNotFound ALERT_SOUND);
      EPrint (ErrCamera CAMERA_INDEX)]).
Proof.
  cbv zeta.
  refine (eq_trans
            (proj1 (X7_startup_failure (MkEnv false None false)
                      [sample_frame 1 1000 113] (MkStore ∅ None 0)
                      (or_intror eq_refl)))
            _).
  reflexivity.
Defined.

(** X8. The quit test looks at the low byte of the key code only: the loop
    is left exactly when the code is 113 modulo 256, so a code that carries
    modifier bits above the low byte still quits, and the -1 that stands
    for no key never does. *)
Theorem X8_quit_key_low_byte (f : Frame) :
  (quit_pressed f = true <-> (wait_key f mod 256 = 113)%Z) /\
  quit_pressed (MkFrame (cap_ret f) (face_count f) (now f) (log_ts f)
                  (print_ts f) (-1)) = false.
Proof.
  split; [| reflexivity].
  unfold quit_pressed. rewrite Z.eqb_eq.
  change 255%Z with (Z.ones 8). rewrite Z.land_ones by lia.
  change (2 ^ 8)%Z with 256%Z. reflexivity.
Qed.

Lemma main_loop_break (wave : option WaveObject) (f : Frame)
    (post : list Frame) (st : Store) :
  is_break f = true ->
  main_loop wave (f :: post) st = main_loop wave [f] st.
Proof.
  unfold is_break. intros Hb. cbn [main_loop].
  destruct (negb (cap_ret f)); [reflexivity |].
  cbn [orb] in Hb. unfold bind.
  destruct (handle_sample wave f st) as [[[] st1] o1].
  rewrite Hb. reflexivity.
Qed.

Lemma main_loop_after_break (wave : option WaveObject) (pre : list Frame)
    (f : Frame) (post : list Frame) :
  is_break f = true ->
  forall st,
    main_loop wave (pre ++ f :: post) st = main_loop wave (pre ++ [f]) st.
Proof.
  intros Hb. induction pre as [| g pre IH]; intros st.
  - apply main_loop_break, Hb.
  - cbn [app main_loop].
    destruct (negb (cap_ret g)); [reflexivity |].
    unfold bind.
    destruct (handle_sample wave g st) as [[[] st1] o1].
    destruct (quit_pressed g); [reflexivity |].
    rewrite IH. reflexivity.
Qed.

(** X9. Frames that follow a failed read or a quit key are never looked
    at: a run of [main] over frames that go on after such a frame is the
    run over the frames up to it. *)
Theorem X9_frames_after_break_ignored
    (E : Env) (pre : list Frame) (f : Frame) (post : list Frame) (st : Store)
    (Hbreak : is_break f = true) :
  main E (pre ++ f :: post) st = main E (pre ++ [f]) st.
Proof.
  unfold main, bind.
  destruct (ensure_report_exists REPORT_CSV st) as [[[] st1] o1].
  destruct (cascade_empty E); [reflexivity |].
  destruct (load_wave (decoded_sound E) ALERT_SOUND st1) as [[w st2] o2].
  destruct (negb (camera_opened E)); [reflexivity |].
  destruct (init_locals st2) as [[[] st3] o3].
  destruct (print MsgStarted st3) as [[[] st4] o4].
  rewrite (main_loop_after_break w pre f post Hbreak st4). reflexivity.
Qed.

Lemma X9_frames_after_break_ignored_witness :
  let E := MkEnv false None true in
  let st := MkStore ∅ None 0 in
  main E ([sample_frame 0 1000 (-1)] ++
          sample_frame 1 1001 113 :: [sample_frame 0 1002 (-1)]) st
  = main E ([sample_frame 0 1000 (-1)] ++ [sample_frame 1 1001 113]) st.
Proof.
  cbv zeta.
  apply (X9_frames_after_break_ignored (MkEnv false None true)
           [sample_frame 0 1000 (-1)] (sample_frame 1 1001 113)
           [sample_frame 0 1002 (-1)] (MkStore ∅ None 0)).
  reflexivity.
Defined.

(** ** The alarm loop: how long and how often *)

(** X10. With a clock that does not run backwards and that every
    [time.sleep(1)] advances by a second at least, [play_wave] with a
    loaded wave returns, after at least one play and at most [N + 1] plays
    for a duration of at most [N] seconds. *)
Theorem X10_play_wave_returns_in_time
    (clk : nat -> Q) (w : WaveObject) (repeat_for : Q) (N fuel : nat)
    (Hepoch : (0 <= clk O)%Q)
    (Hfirst : (clk O <= clk 1%nat)%Q)
    (Hsleep : forall j, (1 <= j)%nat -> (clk j + 1 <= clk (S j))%Q)
    (Hdur : (repeat_for <= inject_Z (Z.of_nat N))%Q)
    (Hfuel : (N < fuel)%nat) :
  let r := play_wave clk fuel (Some w) repeat_for in
  outcome_of r = Done tt /\
  (1 <= count_calls is_wave_play (calls_of r) <= S N)%nat.
Proof.
  intros r.
  destruct (play_wave_returns clk w repeat_for N Hepoch Hfirst Hsleep Hdur)
    as (k & Hk & Hrun).
  specialize (Hrun (fuel - S k)%nat).
  replace (S (k + (fuel - S k)))%nat with fuel in Hrun by lia.
  subst r. rewrite Hrun. cbn [outcome_of calls_of fst snd].
  split; [reflexivity |].
  change (PlayWaveCalled (Some w) repeat_for :: ?l)
    with ([PlayWaveCalled (Some w) repeat_for] ++ l).
  rewrite count_calls_app, count_plays_rounds. cbn. lia.
Qed.

Lemma X10_play_wave_returns_in_time_witness :
  let clk := fun i : nat => (1000 + inject_Z (Z.of_nat i))%Q in
  let w := MkWave [0; 1; 0; -1]%Z 1 2 44100 in
  let r := play_wave clk 40 (Some w) HUMAN_ALERT_DURATION in
  outcome_of r = Done tt /\
  (1 <= count_calls is_wave_play (calls_of r) <= 31)%nat.
Proof.
  cbv zeta.
  apply (X10_play_wave_returns_in_time
           (fun i : nat => (1000 + inject_Z (Z.of_nat i))%Q)
           (MkWave [0; 1; 0; -1]%Z 1 2 44100) HUMAN_ALERT_DURATION 30 40).
  - vm_compute. discriminate.
  - vm_compute. discriminate.
  - intros j _. rewrite Nat2Z.inj_succ. unfold Z.succ.
    rewrite inject_Z_plus. change (inject_Z 1) with 1%Q. lra.
  - vm_compute. discriminate.
  - lia.
Defined.

Lemma play_loop_counts (clk : nat -> Q) (w : WaveObject) (et : option Q)
    (fuel : nat) :
  forall i,
    let r := play_loop clk fuel w et i in
    match outcome_of r with
    | Done _ =>
        count_calls is_wave_play (calls_of r)
        = S (count_calls is_sleep (calls_of r))
    | Raised _ => False
    | OutOfFuel =>
        count_calls is_wave_play (calls_of r) = fuel /\
        count_calls is_sleep (calls_of r) = fuel
    end.
Proof.
  induction fuel as [| fuel IH]; intros i; cbn zeta.
  - cbn. split; reflexivity.
  - destruct et as [t |].
    + rewrite play_loop_S.
      destruct (negb (truthy (Some t))); [reflexivity |].
      destruct (Qle_bool t (clk i)); [reflexivity |].
      specialize (IH (S i)). cbn zeta in IH.
      cbn [outcome_of calls_of fst snd].
      change (WavePlay w :: Sleep 1 :: ?l) with ([WavePlay w; Sleep 1] ++ l).
      rewrite !count_calls_app.
      destruct (outcome_of (play_loop clk fuel w (Some t) (S i)));
        cbn [outcome_of calls_of fst snd] in *.
      * rewrite IH. reflexivity.
      * exact IH.
      * destruct IH as [-> ->]. split; reflexivity.
    + cbn [play_loop]. unfold call. rewrite tbind_done. reflexivity.
Qed.

(** X11. Whatever the clock does, when [play_wave] returns it has slept
    exactly once between two plays: with a loaded wave the number of plays
    is the number of one-second sleeps plus one (it returns right after a
    play, never after a sleep), and with no wave both numbers are zero. *)
Theorem X11_one_sleep_between_plays
    (clk : nat -> Q) (fuel : nat) (wave : option WaveObject) (repeat_for : Q)
    (Hret : outcome_of (play_wave clk fuel wave repeat_for) = Done tt) :
  let cs := calls_of (play_wave clk fuel wave repeat_for) in
  count_calls is_wave_play cs
  = match wave with
    | Some _ => S (count_calls is_sleep cs)
    | None => O
    end /\
  count_calls is_sleep cs
  = count_calls (fun c => match c with Sleep 1 => true | _ => false end) cs.
Proof.
  cbv zeta. revert Hret. unfold play_wave, call. rewrite tbind_done.
  cbn [outcome_of calls_of fst snd].
  destruct wave as [w |]; [| intros _; split; reflexivity].
  set (et := if negb (Qle_bool repeat_for 0) then _ else _). clearbody et.
  intros Hret.
  change (PlayWaveCalled (Some w) repeat_for :: ?l)
    with ([PlayWaveCalled (Some w) repeat_for] ++ l).
  rewrite !count_calls_app.
  pose proof (play_loop_counts clk w et fuel 1%nat) as Hc. cbn zeta in Hc.
  unfold outcome_of in Hc, Hret. rewrite Hret in Hc.
  split; [exact Hc |].
  f_equal. clear. generalize 1%nat.
  induction fuel as [| fuel IH]; intros i; [reflexivity |].
  destruct et as [t |].
  - rewrite play_loop_S. cbn [calls_of snd].
    destruct (negb (truthy (Some t))); [reflexivity |].
    destruct (Qle_bool t (clk i)); [reflexivity |].
    change (WavePlay w :: Sleep 1 :: ?l) with ([WavePlay w; Sleep 1] ++ l).
    rewrite !count_calls_app, IH. reflexivity.
  - cbn [play_loop]. unfold call. rewrite tbind_done. reflexivity.
Qed.

Lemma X11_one_sleep_between_plays_witness :
  let clk := fun i : nat => inject_Z (Z.of_nat i) in
  let w := MkWave [0; 1; 0; -1]%Z 1 2 44100 in
  let cs := calls_of (play_wave clk 5 (Some w) 3) in
  count_calls is_wave_play cs = S (count_calls is_sleep cs) /\
  count_calls is_sleep cs
  = count_calls (fun c => match c with Sleep 1 => true | _ => false end) cs.
Proof.
  cbv zeta.
  apply (X11_one_sleep_between_plays
           (fun i : nat => inject_Z (Z.of_nat i)) 5
           (Some (MkWave [0; 1; 0; -1]%Z 1 2 44100)) 3).
  vm_compute. reflexivity.
Defined.

(** ** A speech call that raises *)

Lemma tbind_raised {A B} (e : string) (c : list Call) (k : A -> T B) :
  tbind (@Raised A e, c) k = (Raised e, c).
Proof. reflexivity. Qed.

Lemma for_range_say_raises (E : ThreadEnv) (m : string) (e : string)
    (k : nat) :
  forall n i0,
    (k < n)%nat ->
    (forall i, (i0 <= i < i0 + k)%nat -> say_raises E i = None) ->
    say_raises E (i0 + k)%nat = Some e ->
    for_range n i0 (fun i => call_may_raise (TtsSay m) (say_raises E i))
    = (Raised e, replicate (S k) (TtsSay m)).
Proof.
  induction k as [| k IH]; intros n i0 Hlt Hbefore Hk.
  - destruct n as [| n]; [lia |]. cbn [for_range].
    rewrite Nat.add_0_r in Hk. rewrite Hk. reflexivity.
  - destruct n as [| n]; [lia |]. cbn [for_range].
    rewrite (Hbefore i0) by lia.
    change (call_may_raise (TtsSay m) None) with (@Done unit tt, [TtsSay m]).
    rewrite tbind_done.
    rewrite (IH n (S i0)).
    + reflexivity.
    + lia.
    + intros i Hi. apply Hbefore. lia.
    + replace (S i0 + k)%nat with (i0 + S k)%nat by lia. exact Hk.
Qed.

(** X12. When the engine starts and the utterance of index [k] (counted
    from 0, below [repeat]) is the first [engine.say] to raise, the episode
    makes [k + 1] [engine.say] calls and never calls
    [engine.runAndWait()], so that none of the queued utterances is
    spoken; it prints one warning and goes on to [play_wave]. *)
Theorem X12_say_raises_nothing_spoken
    (E : ThreadEnv) (fuel : nat) (message : string)
    (wave : option WaveObject) (duration : Q) (repeat k : nat) (e : string)
    (Hinit : init_raises E = None)
    (Hbefore : forall i, (i < k)%nat -> say_raises E i = None)
    (Hk : say_raises E k = Some e)
    (Hlt : (k < repeat)%nat) :
  let p := play_wave (clock E) fuel wave duration in
  let r := speak_message_then_alarm E fuel message wave duration repeat in
  r = (outcome_of p,
       [TtsInit] ++ replicate (S k) (TtsSay message) ++ [WarnTts e]
       ++ calls_of p) /\
  existsb (fun c => match c with TtsRunAndWait => true | _ => false end)
          (calls_of r) = false.
Proof.
  intros p r.
  assert (Hr : r = (outcome_of p,
       [TtsInit] ++ replicate (S k) (TtsSay message) ++ [WarnTts e]
       ++ calls_of p)).
  { subst r. unfold speak_message_then_alarm, speech_stage.
    rewrite Hinit. cbn [call_may_raise]. rewrite tbind_done.
    rewrite (for_range_say_raises E message e k repeat 0%nat Hlt)
      by (try (intros i Hi; apply Hbefore; lia); exact Hk).
    rewrite tbind_raised. cbn [outcome_of calls_of fst snd try_except call].
    fold p. rewrite tbind_done. rewrite <- !app_assoc. reflexivity. }
  split; [exact Hr |].
  rewrite Hr. cbn [calls_of snd].
  destruct (play_wave_calls (clock E) fuel wave duration)
    as (rest & Hp & Hnsp & _). fold p in Hp.
  rewrite !existsb_app. rewrite Hp.
  assert (H1 : existsb (fun c => match c with TtsRunAndWait => true | _ => false end)
                 (replicate (S k) (TtsSay message)) = false).
  { generalize (S k). intros n. induction n as [| n IHn]; [reflexivity |].
    cbn. exact IHn. }
  assert (H2 : existsb (fun c => match c with TtsRunAndWait => true | _ => false end)
                 rest = false).
  { clear -Hnsp. induction rest as [| c rest IH]; [reflexivity |].
    cbn [forallb] in Hnsp. apply andb_prop in Hnsp as [Hc Hrest].
    cbn [existsb]. rewrite (IH Hrest).
    destruct c; cbn in Hc; try discriminate; reflexivity. }
  rewrite H1. cbn [existsb orb]. exact H2.
Qed.

Lemma X12_say_raises_nothing_spoken_witness :
  let E := MkThreadEnv None
             (fun i => if (i =? 1)%nat then Some "engine busy" else None) None
             (fun i => inject_Z (Z.of_nat i)) in
  let p := play_wave (clock E) 3 None 0 in
  let r := speak_message_then_alarm E 3 "Warning!" None 0 3 in
  r = (outcome_of p,
       [TtsInit] ++ replicate 2 (TtsSay "Warning!") ++ [WarnTts "engine busy"]
       ++ calls_of p) /\
  existsb (fun c => match c with TtsRunAndWait => true | _ => false end)
          (calls_of r) = false.
Proof.
  cbv zeta.
  apply (X12_say_raises_nothing_spoken
           (MkThreadEnv None
              (fun i => if (i =? 1)%nat then Some "engine busy" else None) None
              (fun i => inject_Z (Z.of_nat i)))
           3 "Warning!" None 0 3 1 "engine busy").
  - reflexivity.
  - intros i Hi. assert (i = 0%nat) by lia. subst i. reflexivity.
  - reflexivity.
  - lia.
Defined.

(** X13. When the engine starts, every [engine.say] succeeds and
    [engine.runAndWait()] raises, the episode has queued the message
    [repeat] times, prints one warning and goes on to [play_wave] all the
    same. *)
Theorem X13_run_raises_alarm_follows
    (E : ThreadEnv) (fuel : nat) (message : string)
    (wave : option WaveObject) (duration : Q) (repeat : nat) (e : string)
    (Hinit : init_raises E = None)
    (Hsay : forall i, (i < repeat)%nat -> say_raises E i = None)
    (Hrun : run_raises E = Some e) :
  let p := play_wave (clock E) fuel wave duration in
  speak_message_then_alarm E fuel message wave duration repeat =
  (outcome_of p,
   [TtsInit] ++ replicate repeat (TtsSay message)
   ++ [TtsRunAndWait; WarnTts e] ++ calls_of p).
Proof.
  intros p. unfold speak_message_then_alarm, speech_stage.
  rewrite Hinit, Hrun. cbn [call_may_raise]. rewrite tbind_done.
  destruct (for_range_say E message repeat 0%nat) as (_ & _ & _ & Hall).
  cbn zeta in Hall. rewrite Hall by (intros i Hi; apply Hsay; lia).
  rewrite tbind_done. cbn [outcome_of calls_of fst snd try_except call].
  fold p. rewrite tbind_done. cbn [app]. rewrite <- !app_assoc. reflexivity.
Qed.

Lemma X13_run_raises_alarm_follows_witness :
  let E := MkThreadEnv None (fun _ => None) (Some "device lost")
             (fun i => inject_Z (Z.of_nat i)) in
  let p := play_wave (clock E) 3 None 0 in
  speak_message_then_alarm E 3 "Warning!" None 0 2 =
  (outcome_of p,
   [TtsInit] ++ replicate 2 (TtsSay "Warning!")
   ++ [TtsRunAndWait; WarnTts "device lost"] ++ calls_of p).
Proof.
  cbv zeta.
  apply (X13_run_raises_alarm_follows
           (MkThreadEnv None (fun _ => None) (Some "device lost")
              (fun i => inject_Z (Z.of_nat i)))
           3 "Warning!" None 0 2 "device lost").
  - reflexivity.
  - intros i _. reflexivity.
  - reflexivity.
Defined.

(** ** Alerts do not depend on the sound, and are rate-limited *)

Lemma handle_sample_store_any_wave (w1 w2 : option WaveObject) (f : Frame)
    (st : Store) :
  store_of (handle_sample w1 f st) = store_of (handle_sample w2 f st).
Proof.
  rewrite !handle_sample_eq. cbn zeta.
  destruct (0 <? face_count f)%nat.
  - destruct (state_differs "human" (prev_state st)); [| reflexivity].
    rewrite !on_change_human. cbn zeta. destruct (Qle_bool _ _); reflexivity.
  - destruct (state_differs "no_face" (prev_state st)); reflexivity.
Qed.

(** X14. Whether the sound could be loaded has no effect on what the loop
    keeps and on when it raises an alert: the store after the loop and the
    samples at which threads are started are the same for every wave (with
    no wave the thread still speaks). *)
Theorem X14_alerts_do_not_depend_on_sound
    (w1 w2 : option WaveObject) (frames : list Frame) (st : Store) :
  store_of (main_loop w1 frames st) = store_of (main_loop w2 frames st) /\
  episode_starts w1 (handled frames) st = episode_starts w2 (handled frames) st.
Proof.
  split.
  - revert st. induction frames as [| f rest IH]; intros st; cbn [main_loop].
    + reflexivity.
    + destruct (negb (cap_ret f)); [reflexivity |].
      rewrite !store_of_bind, (handle_sample_store_any_wave w1 w2).
      destruct (quit_pressed f); [reflexivity | apply IH].
  - generalize (handled frames). intros fs. revert st.
    induction fs as [| f rest IH]; intros st; cbn [episode_starts].
    + reflexivity.
    + rewrite !handle_sample_starts, (handle_sample_store_any_wave w1 w2), IH.
      reflexivity.
Qed.

(** X15. Alerts are rate-limited: the thread start of index [i] (counted
    from 0) of a run is made at a clock reading of at least
    [last_alert_time + (i + 1) * ALERT_COOLDOWN], [last_alert_time] being
    the value held when the run begins (0 in [main]). *)
Theorem X15_alert_rate_limit
    (wave : option WaveObject) (fs : list Frame) (st : Store) (i : nat) (t : Q)
    (Hi : episode_starts wave fs st !! i = Some t) :
  (last_alert_time st + inject_Z (Z.of_nat (S i)) * ALERT_COOLDOWN <= t)%Q.
Proof.
  revert st i Hi. induction fs as [| f rest IH]; intros st i Hi;
    cbn [episode_starts] in Hi.
  - discriminate.
  - pose proof (handle_sample_last_alert wave f st) as Hlast.
    destruct (existsb is_thread_start (trace_of (handle_sample wave f st)))
      eqn:Hs; cbn [app] in Hi.
    + rewrite handle_sample_starts in Hs.
      apply andb_prop in Hs as [_ Hq]. apply Qle_bool_iff in Hq.
      unfold ALERT_COOLDOWN in *.
      destruct i as [| j].
      * change (Some (now f) = Some t) in Hi.
        injection Hi as <-. change (inject_Z (Z.of_nat 1)) with 1%Q. lra.
      * change (episode_starts wave rest (store_of (handle_sample wave f st))
                !! j = Some t) in Hi.
        apply IH in Hi. rewrite Hlast in Hi.
        unfold ALERT_COOLDOWN in Hi.
        rewrite (Nat2Z.inj_succ (S j)). unfold Z.succ.
        rewrite inject_Z_plus. change (inject_Z 1) with 1%Q. lra.
    + apply IH in Hi. rewrite Hlast in Hi. exact Hi.
Qed.

Lemma X15_alert_rate_limit_witness :
  (0 + inject_Z (Z.of_nat 2) * ALERT_COOLDOWN <= 1007)%Q.
Proof.
  apply (X15_alert_rate_limit None
           [sample_frame 1 1000 (-1); sample_frame 0 1003 (-1);
            sample_frame 1 1007 (-1)]
           (MkStore ∅ None 0) 1 1007).
  vm_compute. reflexivity.
Defined.

(** ** The cooldown, in the spec's words *)

Lemma orchestrator_refined (wave : option WaveObject) (fs : list Frame) :
  forall (st : Store) (la : option Q),
    last_alert_time st = match la with Some t => t | None => 0%Q end ->
    (la = None -> Forall (fun f => (ALERT_COOLDOWN <= now f)%Q) fs) ->
    episode_starts wave fs st = AlertOrchestrator_starts la (held_human st) fs.
Proof.
  induction fs as [| f rest IH]; intros st la Hla Hclock;
    cbn [episode_starts AlertOrchestrator_starts].
  - reflexivity.
  - assert (Hgate : Qle_bool ALERT_COOLDOWN (now f - last_alert_time st)
                    = cooldown_elapsed la (now f)).
    { rewrite Hla. destruct la as [t |]; cbn [cooldown_elapsed]; [reflexivity |].
      specialize (Hclock eq_refl). apply Forall_inv in Hclock. cbv beta in Hclock.
      apply Qle_bool_true. lra. }
    pose proof (handle_sample_last_alert wave f st) as Hlast.
    rewrite handle_sample_starts in *. rewrite Hgate in *.
    change (0 <? face_count f)%nat with (has_face f) in *.
    replace (state_differs "human" (prev_state st)) with (negb (held_human st)) in *
      by (unfold held_human; apply negb_involutive).
    destruct (has_face f && negb (held_human st) && cooldown_elapsed la (now f)).
    + cbn [app]. f_equal.
      rewrite (IH _ (Some (now f))), held_human_after;
        [reflexivity | exact Hlast | discriminate].
    + cbn [app].
      rewrite (IH _ la), held_human_after; [reflexivity | congruence |].
      intros Hn. specialize (Hclock Hn). apply Forall_inv_tail in Hclock.
      exact Hclock.
Qed.

(** C3. With clock readings of at least the cooldown (any reading of a
    clock set later than the first seconds of 1970), the loop starts its
    alert threads exactly where the spec's orchestrator starts its
    episodes: at a transition into Present whose elapsed time since the
    last start is at least the cooldown, a never-fired orchestrator
    ([last_alert_time = 0] in the code) counting as elapsed = +infinity;
    never, hence, at a time less than the cooldown after the last start;
    and any two starts are at least the cooldown apart, so that two
    transitions into Present closer than that start one episode at
    most. *)
Theorem C3_cooldown
    (wave : option WaveObject) (fs : list Frame) (st : Store) (la : option Q)
    (Hla : last_alert_time st = match la with Some t => t | None => 0%Q end)
    (Hclock : la = None -> Forall (fun f => (ALERT_COOLDOWN <= now f)%Q) fs) :
  episode_starts wave fs st = AlertOrchestrator_starts la (held_human st) fs /\
  Forall (fun t => match la with
                   | Some l => (ALERT_COOLDOWN <= t - l)%Q
                   | None => True
                   end) (episode_starts wave fs st) /\
  StronglySorted cooldown_apart (episode_starts wave fs st) /\
  length (List.filter is_thread_start (trace_of (main_loop wave fs st)))
    = length (episode_starts wave (handled fs) st).
Proof.
  split; [apply orchestrator_refined; assumption |].
  split; [| split; [| apply main_loop_starts]].
  - destruct la as [l |]; [| apply Forall_forall; intros; exact I].
    eapply Forall_impl; [apply episode_starts_after |].
    cbv beta. intros t Ht. rewrite Hla in Ht. lra.
  - apply (cooldown_invariant wave (MkFrame true 0 0 "" "" 0) fs st).
Qed.

Lemma C3_cooldown_witness :
  let fs := [sample_frame 1 1000 (-1); sample_frame 0 1002 (-1);
             sample_frame 1 1003 (-1); sample_frame 0 1004 (-1);
             sample_frame 1 1007 (-1)] in
  let st := MkStore ∅ None 0 in
  episode_starts None fs st = AlertOrchestrator_starts None (held_human st) fs /\
  Forall (fun _ : Q => True) (episode_starts None fs st) /\
  StronglySorted cooldown_apart (episode_starts None fs st) /\
  length (List.filter is_thread_start (trace_of (main_loop None fs st)))
    = length (episode_starts None (handled fs) st).
Proof.
  cbv zeta.
  apply (C3_cooldown None
           [sample_frame 1 1000 (-1); sample_frame 0 1002 (-1);
            sample_frame 1 1003 (-1); sample_frame 0 1004 (-1);
            sample_frame 1 1007 (-1)]
           (MkStore ∅ None 0) None).
  - reflexivity.
  - intros _. repeat constructor; vm_compute; discriminate.
Defined.

(** The run of the witness: the first and the third face start a thread,
    the second comes too early. *)
Example orchestrator_starts_1000_1007 :
  AlertOrchestrator_starts None false
    [sample_frame 1 1000 (-1); sample_frame 0 1002 (-1);
     sample_frame 1 1003 (-1); sample_frame 0 1004 (-1);
     sample_frame 1 1007 (-1)]
  = [1000%Q; 1007%Q].
Proof. vm_compute. reflexivity. Qed.

(** ** The header of an existing report *)

(** C9 fails as stated: a report file that exists when [main] starts is
    left as it is, so one without a header (an empty one here) gets none,
    and the first row appended has no header before it; and the header the
    code writes to an absent file names the columns [detection] and
    [face_count], not the spec's [detection_state] and [subject_count]. *)
Lemma C9_existing_file_gets_no_header :
  let f := sample_frame 2 1000 113 in
  let st := MkStore {[ REPORT_CSV := [] ]} None 0 in
  let r := main (MkEnv false None true) [f] st in
  report (store_of r) = [human_row f 2] /\
  List.filter is_header_write (trace_of r) = [] /\
  header <> spec_header.
Proof.
  cbv zeta. split; [| split].
  - vm_compute. reflexivity.
  - vm_compute. reflexivity.
  - unfold header, spec_header. congruence.
Qed.

(** C9, amended. [ensure_report_exists] creates an absent file with the
    header (timestamp, detection, face_count, notes) as its only row and
    leaves an existing file, whatever it holds, and everything else as it
    is; afterwards the file exists and a second call does nothing.  [main]
    calls it first and nowhere else: the report after a run is what the
    file held at the start (the header alone when it was absent) followed
    by data rows only, and the header is written once when the file was
    absent and never otherwise.  So the header stands at the head of the
    report, before the first appended row, when the file was absent; the
    first row of an existing file stays the first (the header if it began
    with one); and an existing empty file holds data rows only. *)
Theorem C9_header_once
    (path : string) (st : Store) (E : Env) (frames : list Frame) :
  let r := ensure_report_exists path st in
  r = (if path_exists (files st) path then (tt, st, [])
       else (tt,
             MkStore (<[path := [header]]> (files st)) (prev_state st)
               (last_alert_time st),
             [EWriteRow path header])) /\
  files (store_of r) !! path = Some (default [header] (files st !! path)) /\
  ensure_report_exists path (store_of r) = (tt, store_of r, []) /\
  (exists rows,
     report (store_of (main E frames st)) =
       default [header] (files st !! REPORT_CSV) ++ rows /\
     Forall is_data_row rows) /\
  List.filter is_header_write (trace_of (main E frames st)) =
    (if path_exists (files st) REPORT_CSV then []
     else [EWriteRow REPORT_CSV header]) /\
  match files st !! REPORT_CSV with
  | None => head (report (store_of (main E frames st))) = Some header
  | Some (first :: _) =>
      head (report (store_of (main E frames st))) = Some first
  | Some [] => Forall is_data_row (report (store_of (main E frames st)))
  end.
Proof.
  intros r.
  destruct (header_written_once path st E frames) as (H1 & H2 & H3 & H4 & H5).
  split; [exact H1 |]. split; [exact H2 |]. split; [exact H3 |].
  split; [exact H4 |]. split; [exact H5 |].
  destruct H4 as (rows & Hrep & Hrows). rewrite Hrep.
  destruct (files st !! REPORT_CSV) as [[| first old] |]; cbn.
  - exact Hrows.
  - reflexivity.
  - reflexivity.
Qed.
